(** * Bonding-curve sale scenario analyzer: extraction and aggregation

    A shallow embedding of [contracts/test/lifecycle/analyze_sale_scenarios.py]
    (class [BondingCurveSaleAnalyzer] and [main]) and the properties its
    specification states about it.

    Conventions of the embedding.
    - A Python [str] is a [list ascii]; a character is a code point below 256.
      On these code points Python's [\s] (and [str.isspace], hence [str.strip])
      accepts exactly 9-13, 28-32, 133 and 160, and [\d] accepts exactly the
      ten digits ['0'..'9'].
    - A Python [int] is a [Z] (the limit that recent versions of CPython put
      on the number of digits [int] and [str] convert is left out); a Python
      [float] is a binary64 [float].
    - The regular expressions of the source are written as lists of atoms and
      run by a backtracking matcher with the priorities of Python's [re]
      (greedy repetitions try the longest run first, lazy ones the shortest).
    - A [dict] keyed by strings is a [gmap]; a pandas [DataFrame] is an ordered
      list of named columns of cells.
    - The harness, [subprocess.run] and [json.dumps] are parameters; what a
      run prints, draws and writes is a list of events. *)

From Stdlib Require Import ZArith Ascii String DecimalString List Bool Lia.
From Stdlib Require DecimalPos.
From Stdlib Require Import Floats.PrimFloat Floats.SpecFloat Floats.FloatOps Floats.FloatAxioms.
From stdpp Require Import base option list gmap strings.

Set Default Proof Using "Type".
(* A decimal float literal denotes the nearest binary64 number, as in Python. *)
#[local] Set Warnings "-inexact-float".
Local Open Scope Z_scope.

(** ** Text *)

Abbreviation str := (list ascii).

Definition lit (s : string) : str := list_ascii_of_string s.

Definition code (c : ascii) : N := N_of_ascii c.

(** [\s] of a Python 3 [str] pattern, and [str.isspace]. *)
Definition is_space (c : ascii) : bool :=
  let n := code c in
  ((9 <=? n) && (n <=? 13) || (28 <=? n) && (n <=? 32) || (n =? 133) || (n =? 160))%N.

(** [\d] of a Python 3 [str] pattern. *)
Definition is_digit (c : ascii) : bool :=
  let n := code c in ((48 <=? n) && (n <=? 57))%N.

(** [[^:]] *)
Definition not_colon (c : ascii) : bool :=
  negb (code c =? 58)%N.

(** [.] under [re.DOTALL] *)
Definition any_char (_ : ascii) : bool := true.

(** [str.lower()] of one character. *)
Definition py_lower (c : ascii) : ascii :=
  let n := code c in
  if ((65 <=? n) && (n <=? 90) || (192 <=? n) && (n <=? 214) || (216 <=? n) && (n <=? 222))%N
  then ascii_of_N (n + 32) else c.

(** [str.strip()] *)
Fixpoint lstrip (s : str) : str :=
  match s with
  | c :: s' => if is_space c then lstrip s' else s
  | [] => []
  end.
Definition rstrip (s : str) : str := rev (lstrip (rev s)).
Definition strip (s : str) : str := rstrip (lstrip s).

Definition is_empty (s : str) : bool :=
  match s with
  | [] => true
  | _ => false
  end.

(** [int(s)] on a run of decimal digits. *)
Definition digit_val (c : ascii) : Z := Z.of_N (code c) - 48.

Definition int_of_digits (s : str) : Z :=
  fold_left (fun acc c => 10 * acc + digit_val c) s 0.

(** [s.startswith(p)], returning what follows the prefix. *)
Fixpoint strip_prefix (p s : str) : option str :=
  match p with
  | [] => Some s
  | a :: p' =>
      match s with
      | [] => None
      | b :: s' => if Ascii.eqb a b then strip_prefix p' s' else None
      end
  end.

(** ** Regular expressions

    The patterns of the source are concatenations of literals and of
    repetitions of one character class, each capture group being exactly one
    repetition.  [Rep g m cls cap] is [cls*] ([m = 0]) or [cls+] ([m = 1]),
    greedy or lazy, captured when [cap] holds. *)

Module Re.

Inductive greed := Greedy | Lazy.

Inductive atom :=
| Lit (l : str)
| Rep (g : greed) (min : nat) (cls : ascii -> bool) (cap : bool).

Definition regex := list atom.

(** A successful match: the captured groups in order, and the text left
    after the match. *)
Definition result := (list str * str)%type.

Definition add_group (cap : bool) (g : str) (r : result) : result :=
  if cap then (g :: r.1, r.2) else r.

(** One repetition followed by the continuation [k]; [acc] is the run
    consumed so far, reversed; [min] is how many characters are still owed. *)
Fixpoint rep (g : greed) (cls : ascii -> bool) (cap : bool)
    (k : str -> option result) (min : nat) (acc : str) (s : str)
    {struct s} : option result :=
  match g with
  | Greedy =>
      match
        match s with
        | c :: s' => if cls c then rep g cls cap k (pred min) (c :: acc) s' else None
        | [] => None
        end
      with
      | Some r => Some r
      | None =>
          match min with
          | O => add_group cap (rev acc) <$> k s
          | S _ => None
          end
      end
  | Lazy =>
      match
        match min with
        | O => add_group cap (rev acc) <$> k s
        | S _ => None
        end
      with
      | Some r => Some r
      | None =>
          match s with
          | c :: s' => if cls c then rep g cls cap k (pred min) (c :: acc) s' else None
          | [] => None
          end
      end
  end.

(** [pattern.match(s)]: the match anchored at the start of [s]. *)
Fixpoint match_here (re : regex) : str -> option result :=
  match re with
  | [] => fun s => Some ([], s)
  | Lit l :: re' =>
      fun s =>
        match strip_prefix l s with
        | Some s' => match_here re' s'
        | None => None
        end
  | Rep g min cls cap :: re' => rep g cls cap (match_here re') min []
  end.

(** [re.search]: the leftmost match. *)
Fixpoint search (re : regex) (s : str) : option result :=
  match match_here re s with
  | Some r => Some r
  | None =>
      match s with
      | [] => None
      | _ :: s' => search re s'
      end
  end.

(** [re.findall] / [re.finditer]: the non-overlapping matches from left to
    right, each given by its groups.  [skip] counts the characters of the
    last match that remain to be passed over.  (A match of no character
    advances by one; no pattern of the source has one.) *)
Fixpoint findall_from (re : regex) (skip : nat) (s : str) : list (list str) :=
  match skip with
  | S n =>
      match s with
      | [] => []
      | _ :: s' => findall_from re n s'
      end
  | O =>
      match match_here re s with
      | Some (groups, rest) =>
          groups ::
            match s with
            | [] => []
            | _ :: s' => findall_from re (length s - length rest - 1) s'
            end
      | None =>
          match s with
          | [] => []
          | _ :: s' => findall_from re 0 s'
          end
      end
  end.

Definition findall (re : regex) (s : str) : list (list str) := findall_from re 0 s.

End Re.

Import Re.

(** ** The three patterns of [parse_test_output] *)

Definition SUMMARY_OPEN : str := lit "------- TOKEN SALE SUMMARY -------".
Definition SUMMARY_CLOSE : str := lit "------- BONDING CURVE INTEGRITY".

(** [r'------- TOKEN SALE SUMMARY -------\s*(.*?)------- BONDING CURVE INTEGRITY']
    with [re.DOTALL] *)
Definition summary_re : regex :=
  [ Lit SUMMARY_OPEN; Rep Greedy 0 is_space false; Rep Lazy 0 any_char true;
    Lit SUMMARY_CLOSE ].

(** [r'([^:]+):\s*(\d+)'] *)
Definition pair_re : regex :=
  [ Rep Greedy 1 not_colon true; Lit (lit ":"); Rep Greedy 0 is_space false;
    Rep Greedy 1 is_digit true ].

(** [r'Purchase #:\s*(\d+)[\r\n\s]*ETH spent:\s*(\d+)[\r\n\s]*Tokens received:\s*(\d+)[\r\n\s]*Current price:\s*(\d+)'];
    the class [[\r\n\s]] is [\s]. *)
Definition purchase_re : regex :=
  [ Lit (lit "Purchase #:"); Rep Greedy 0 is_space false; Rep Greedy 1 is_digit true;
    Rep Greedy 0 is_space false;
    Lit (lit "ETH spent:"); Rep Greedy 0 is_space false; Rep Greedy 1 is_digit true;
    Rep Greedy 0 is_space false;
    Lit (lit "Tokens received:"); Rep Greedy 0 is_space false; Rep Greedy 1 is_digit true;
    Rep Greedy 0 is_space false;
    Lit (lit "Current price:"); Rep Greedy 0 is_space false; Rep Greedy 1 is_digit true ].

(** ** [parse_test_output] *)

Record purchase := Purchase {
  purchase_num : Z;
  eth_spent : Z;
  tokens_received : Z;
  current_price : Z
}.

Record parsed := Parsed {
  summary : gmap str Z;
  purchases : list purchase
}.

(** [match.group(i + 1)], and [t[i]] for a tuple of [re.findall]. *)
Definition group (i : nat) (groups : list str) : str := nth i groups [].

(** The loop over [re.finditer(pattern, summary_text)]: later pairs overwrite
    earlier ones. *)
Definition add_metric (metrics : gmap str Z) (groups : list str) : gmap str Z :=
  <[strip (group 0 groups) := int_of_digits (group 1 groups)]> metrics.

Definition parse_metrics (summary_text : str) : gmap str Z :=
  fold_left add_metric (findall pair_re summary_text) ∅.

(** The loop over [purchase_data]. *)
Definition purchase_of_groups (groups : list str) : purchase :=
  {| purchase_num := int_of_digits (group 0 groups);
     eth_spent := int_of_digits (group 1 groups);
     tokens_received := int_of_digits (group 2 groups);
     current_price := int_of_digits (group 3 groups) |}.

Definition parse_purchases (output : str) : list purchase :=
  map purchase_of_groups (findall purchase_re output).

(** [summary_match.group(1)], when the summary section is found. *)
Definition find_summary (output : str) : option str :=
  match search summary_re output with
  | Some r => Some (group 0 r.1)
  | None => None
  end.

Definition parse_test_output (output : str) : option parsed :=
  match find_summary output with
  | None => None
  | Some summary_text =>
      Some (Parsed (parse_metrics summary_text) (parse_purchases output))
  end.

(** [str(z)] *)
Definition str_of_Z (z : Z) : str := lit (NilZero.string_of_int (Z.to_int z)).

Definition len (s : str) : Z := Z.of_nat (length s).

(** [repr] of a purchase dictionary. *)
Definition repr_purchase (p : purchase) : str :=
  lit "{'purchase_num': " ++ str_of_Z (purchase_num p) ++
  lit ", 'eth_spent': " ++ str_of_Z (eth_spent p) ++
  lit ", 'tokens_received': " ++ str_of_Z (tokens_received p) ++
  lit ", 'current_price': " ++ str_of_Z (current_price p) ++ lit "}".

(** What a call of [parse_test_output] prints, one entry per [print]; it
    has no part in what the call returns. *)
Definition parse_test_output_prints (output : str) : list str :=
  [ lit "Output length: " ++ str_of_Z (len output);
    lit "Output excerpt:";
    if 500 <? len output then drop (length output - 500) output else output ] ++
  match find_summary output with
  | None => [ lit "Could not find sale summary in output" ]
  | Some summary_text =>
      let purchases := parse_purchases output in
      [ lit "Found summary: " ++ summary_text;
        lit "Found " ++ str_of_Z (Z.of_nat (length purchases)) ++ lit " purchase entries" ] ++
      match purchases with
      | [] => []
      | first :: _ => [ lit "First purchase: " ++ repr_purchase first ]
      end
  end.

(** ** Python values, exceptions and floating point *)

Inductive exn :=
| KeyError (key : str)
| ZeroDivisionError
| OverflowError
| TypeError.

(** A computation that returns or raises. *)
Inductive res (A : Type) :=
| Ok (a : A)
| Raise (e : exn).
Arguments Ok {A} a.
Arguments Raise {A} e.

Definition res_bind {A B} (f : A -> res B) (m : res A) : res B :=
  match m with
  | Ok a => f a
  | Raise e => Raise e
  end.

Definition res_fmap {A B} (f : A -> B) (m : res A) : res B :=
  match m with
  | Ok a => Ok (f a)
  | Raise e => Raise e
  end.

#[global] Instance res_mbind : MBind res := @res_bind.
#[global] Instance res_mret : MRet res := @Ok.
#[global] Instance res_map_inst : FMap res := @res_fmap.

Fixpoint res_map {A B} (f : A -> res B) (l : list A) : res (list B) :=
  match l with
  | [] => Ok []
  | a :: l' => b ← f a; bs ← res_map f l'; Ok (b :: bs)
  end.

(** The value held by a cell of a table: a Python [int], [float] or [str]. *)
Inductive cell :=
| CInt (z : Z)
| CFloat (f : float)
| CStr (s : str).

(** The nearest binary64 number, ties to even. *)
Definition float_of_Z (z : Z) : float := SF2Prim (binary_normalize 53 1024 z 0 false).

(** The integers from which [float(z)] overflows: the midpoint between the
    largest finite binary64 number and [2^1024] rounds up. *)
Definition FLOAT_OVERFLOW : Z := 2 ^ 1024 - 2 ^ 970.

(** [float(z)] for a Python [int]. *)
Definition py_float_of_int (z : Z) : res float :=
  if FLOAT_OVERFLOW <=? Z.abs z then Raise OverflowError else Ok (float_of_Z z).

(** [a / b] on Python [int]s: the correctly rounded quotient. *)
Definition py_int_truediv (a b : Z) : res float :=
  if b =? 0 then Raise ZeroDivisionError
  else if a =? 0 then Ok (if b <? 0 then (-0)%float else 0%float)
  else
    let '(m, e, l) := SFdiv_core_binary 53 1024 (Z.abs a) 0 (Z.abs b) 0 in
    let f := SF2Prim (binary_round_aux 53 1024 (xorb (a <? 0) (b <? 0)) m e l) in
    if PrimFloat.is_infinity f then Raise OverflowError else Ok f.

Definition py_float_truediv (a b : float) : res float :=
  if is_zero b then Raise ZeroDivisionError else Ok (a / b)%float.

(** [a / b] on Python objects. *)
Definition py_truediv (a b : cell) : res cell :=
  match a, b with
  | CInt x, CInt y => CFloat <$> py_int_truediv x y
  | CInt x, CFloat y => fx ← py_float_of_int x; CFloat <$> py_float_truediv fx y
  | CFloat x, CInt y => fy ← py_float_of_int y; CFloat <$> py_float_truediv x fy
  | CFloat x, CFloat y => CFloat <$> py_float_truediv x y
  | _, _ => Raise TypeError
  end.

(** [bool(x)] *)
Definition truthy (x : cell) : bool :=
  match x with
  | CInt z => negb (z =? 0)
  | CFloat f => negb (is_zero f)
  | CStr s => negb (is_empty s)
  end.

(** ** pandas

    A column holds the Python values of its cells; its dtype is the one
    [lib.maybe_convert_objects] infers from them, which is how the frames of
    this program get their columns ([DataFrame(records)], [Series.apply]). *)

Inductive dtype := Int64 | UInt64 | Float64 | Object.

Definition in_int64 (c : cell) : bool :=
  match c with
  | CInt z => (- 2 ^ 63 <=? z) && (z <? 2 ^ 63)
  | _ => true
  end.

Definition in_uint64 (c : cell) : bool :=
  match c with
  | CInt z => (0 <=? z) && (z <? 2 ^ 64)
  | _ => true
  end.

Definition is_str (c : cell) : bool := match c with CStr _ => true | _ => false end.
Definition is_float (c : cell) : bool := match c with CFloat _ => true | _ => false end.

Definition infer_dtype (col : list cell) : dtype :=
  match col with
  | [] => Object
  | _ =>
      if existsb is_str col then Object
      else if forallb in_int64 col then
        if existsb is_float col then Float64 else Int64
      else if forallb in_uint64 col then
        if existsb is_float col then Float64 else UInt64
      else Object
  end.

(** The C cast of a numeric cell to [double]. *)
Definition as_float64 (c : cell) : float :=
  match c with
  | CInt z => float_of_Z z
  | CFloat f => f
  | CStr _ => nan
  end.

(** The values as the column stores them: in a [float64] column the
    integers have become floats. *)
Definition convert_objects (col : list cell) : list cell :=
  match infer_dtype col with
  | Float64 => map (fun c => CFloat (as_float64 c)) col
  | _ => col
  end.

Record DataFrame := {
  df_rows : nat;
  df_cols : list (str * list cell)
}.

(** A Python [dict] with string keys, in insertion order. *)
Abbreviation dict := (list (str * cell)).

Fixpoint lookup_key {A} (k : str) (d : list (str * A)) : option A :=
  match d with
  | [] => None
  | (k', v) :: d' => if bool_decide (k' = k) then Some v else lookup_key k d'
  end.

Definition add_key (seen : list str) (k : str) : list str :=
  if bool_decide (k ∈ seen) then seen else seen ++ [k].

(** The keys of the records, in the order in which they first appear. *)
Definition record_keys (records : list dict) : list str :=
  fold_left (fun seen r => fold_left add_key (map fst r) seen) records [].

(** [pd.DataFrame(records)] for a list of dictionaries; a key that a record
    lacks reads as not-a-number. *)
Definition DataFrame_of_records (records : list dict) : DataFrame :=
  {| df_rows := length records;
     df_cols :=
       map (fun k =>
              (k, convert_objects
                    (map (fun r => default (CFloat nan) (lookup_key k r)) records)))
           (record_keys records) |}.

(** [df[k]] *)
Definition getitem (df : DataFrame) (k : str) : res (list cell) :=
  match lookup_key k (df_cols df) with
  | Some col => Ok col
  | None => Raise (KeyError k)
  end.

Fixpoint replace_key {A} (k : str) (v : A) (d : list (str * A)) : list (str * A) :=
  match d with
  | [] => [(k, v)]
  | (k', v') :: d' => if bool_decide (k' = k) then (k, v) :: d' else (k', v') :: replace_key k v d'
  end.

(** [df[k] = col]: the column is replaced where it stands, or added last. *)
Definition setitem (df : DataFrame) (k : str) (col : list cell) : DataFrame :=
  {| df_rows := df_rows df; df_cols := replace_key k col (df_cols df) |}.

(** [col.apply(f)] *)
Definition apply (f : cell -> res cell) (col : list cell) : res (list cell) :=
  convert_objects <$> res_map f col.

(** [a / b] on two columns of one frame.  Numeric columns divide as
    [float64], where a division by zero gives an infinity or not-a-number;
    a column of dtype [object] divides its Python values one by one. *)
Definition series_truediv (a b : list cell) : res (list cell) :=
  match infer_dtype a, infer_dtype b with
  | Object, _ | _, Object => res_map (fun xy => py_truediv xy.1 xy.2) (zip a b)
  | _, _ => Ok (zip_with (fun x y => CFloat (as_float64 x / as_float64 y)%float) a b)
  end.

(** ** [BondingCurveSaleAnalyzer] *)

(** What a run leaves behind: the texts printed, the tables printed (their
    rendering is left to pandas), the directories made and the files
    written. *)
Inductive event :=
| Print (text : str)
| PrintTable (df : DataFrame)
| MakeDirs (path : str)
| SaveFig (path : str)
| WriteFile (path : str).

(** [subprocess.CompletedProcess] *)
Record CompletedProcess := {
  returncode : Z;
  stdout : str;
  stderr : str
}.

(** A scenario dictionary; each key may be absent. *)
Record scenario := Scenario {
  sc_name : option str;
  sc_test_name : option str;
  sc_params : option (list (str * Z))
}.

(** The dictionary [run_scenario_tests] collects for a scenario. *)
Record scenario_result := ScenarioResult {
  data : parsed;
  scenario_name : str;
  full_output : str
}.

Fixpoint join (sep : str) (l : list str) : str :=
  match l with
  | [] => []
  | [s] => s
  | s :: l' => s ++ sep ++ join sep l'
  end.

Section Analyzer.

(** The harness and the standard library: [subprocess.run] of a command
    line with the environment variables set besides [os.environ], in a
    world it may change, and [json.dumps]. *)
Context {World : Type}.
Context (subprocess_run : list str -> list (str * str) -> World -> CompletedProcess * World).
Context (json_dumps : list (str * Z) -> str).

Record state := {
  world : World;
  events : list event
}.

Definition emit (e : event) (st : state) : state :=
  {| world := world st; events := events st ++ [e] |}.

Definition print (text : str) : state -> state := emit (Print text).

Definition run_forge_test (test_name : str) (params : list (str * Z)) (st : state)
    : str * state :=
  let cmd := [lit "forge"; lit "test"; lit "--match-test"; test_name; lit "-vvv"] in
  let env :=
    (lit "FOUNDRY_PROFILE", lit "lifecycle") ::
    match params with
    | [] => []
    | _ => [(lit "TEST_PARAMS", json_dumps params)]
    end in
  let st := print (lit "Running command with FOUNDRY_PROFILE=lifecycle: " ++ join (lit " ") cmd) st in
  let '(result, w) := subprocess_run cmd env (world st) in
  let st := {| world := w; events := events st |} in
  let st := print (lit "Exit code: " ++ str_of_Z (returncode result)) st in
  let st :=
    if returncode result =? 0 then st
    else print (lit "Error output: " ++ stderr result) st in
  (stdout result, st).

(** The loop of [run_scenario_tests]; [results] is the list built so far. *)
Fixpoint run_scenarios (scenarios : list scenario) (results : list scenario_result)
    (st : state) : list scenario_result * state :=
  match scenarios with
  | [] => (results, st)
  | sc :: scenarios' =>
      let name := default (lit "Unnamed Scenario") (sc_name sc) in
      let test_name := default (lit "test_Scenario_EndToEndTokenSale") (sc_test_name sc) in
      let params := default [] (sc_params sc) in
      let st := print (lit "Running scenario: " ++ name) st in
      let '(output, st) := run_forge_test test_name params st in
      let st := fold_left (fun st text => print text st) (parse_test_output_prints output) st in
      match parse_test_output output with
      | Some d => run_scenarios scenarios' (results ++ [ScenarioResult d name output]) st
      | None =>
          run_scenarios scenarios' results
            (print (lit "Failed to parse output for scenario: " ++ name) st)
      end
  end.

Definition run_scenario_tests (scenarios : list scenario) (st : state)
    : list scenario_result * state :=
  run_scenarios scenarios [] st.

End Analyzer.

Arguments state : clear implicits.

(** [result['summary'].get(key, 0)] *)
Definition get_metric (r : scenario_result) (key : string) : cell :=
  CInt (default 0 (summary (data r) !! lit key)).

(** The dictionary [create_summary_table] builds for a scenario. *)
Definition summary_record (r : scenario_result) : dict :=
  [ (lit "Scenario", CStr (scenario_name r));
    (lit "Initial Price (wei)", get_metric r "Starting price");
    (lit "Final Price (wei)", get_metric r "Final price");
    (lit "Price Increase (%)", get_metric r "Price increase (%)");
    (lit "Tokens Sold", get_metric r "Tokens sold in sale");
    (lit "ETH Raised", get_metric r "Total ETH raised");
    (lit "Avg Price Per Token (wei)", get_metric r "Effective avg price per token") ].

(** [lambda x: x / d if x else 0] *)
Definition scale_or_zero (d : float) (x : cell) : res cell :=
  if truthy x then py_truediv x (CFloat d) else Ok (CInt 0).

(** [lambda x: x / d] *)
Definition scale (d : float) (x : cell) : res cell := py_truediv x (CFloat d).

(** [df[dst] = df[src].apply(f)] *)
Definition derive (f : cell -> res cell) (src dst : string) (df : DataFrame) : res DataFrame :=
  col ← getitem df (lit src);
  new ← apply f col;
  Ok (setitem df (lit dst) new).

Definition create_summary_table (results : list scenario_result) : res DataFrame :=
  let df := DataFrame_of_records (map summary_record results) in
  df ← derive (scale_or_zero 1e18%float) "Initial Price (wei)" "Initial Price (ETH)" df;
  df ← derive (scale_or_zero 1e18%float) "Final Price (wei)" "Final Price (ETH)" df;
  df ← derive (scale_or_zero 1e18%float) "ETH Raised" "ETH Raised" df;
  derive (scale_or_zero 1e6%float) "Tokens Sold" "Tokens Sold (millions)" df.

(** [purchase.copy()] with the scenario label added. *)
Definition purchase_record (name : str) (p : purchase) : dict :=
  [ (lit "purchase_num", CInt (purchase_num p));
    (lit "eth_spent", CInt (eth_spent p));
    (lit "tokens_received", CInt (tokens_received p));
    (lit "current_price", CInt (current_price p));
    (lit "scenario", CStr name) ].

Definition all_purchases (results : list scenario_result) : list dict :=
  concat (map (fun r => map (purchase_record (scenario_name r)) (purchases (data r))) results).

(** The unit conversions of the purchase table. *)
Definition purchase_units (df : DataFrame) : res DataFrame :=
  df ← derive (scale 1e18%float) "eth_spent" "eth_spent_in_eth" df;
  df ← derive (scale 1e6%float) "tokens_received" "tokens_in_millions" df;
  derive (scale 1e18%float) "current_price" "price_in_eth" df.

Definition create_purchase_dataframe (results : list scenario_result) : res DataFrame :=
  purchase_units (DataFrame_of_records (all_purchases results)).

(** The column [plot_tokens_per_eth] adds to the purchase table it is
    given. *)
Definition tokens_per_eth (purchase_df : DataFrame) : res DataFrame :=
  tokens ← getitem purchase_df (lit "tokens_received");
  eth ← getitem purchase_df (lit "eth_spent");
  ratio ← series_truediv tokens eth;
  Ok (setitem purchase_df (lit "tokens_per_eth") ratio).

(** ** Charts, reports and [main]

    The drawing of the charts and the rendering of the tables are outside of
    the embedding: a chart is the file [savefig] writes, a report the files
    [save_results] writes. *)

Inductive main_exit :=
| NoValidResults
| NoPurchaseData
| AnalysisComplete (summary_df purchase_df : DataFrame).

Section Main.

Context {World : Type}.
Context (subprocess_run : list str -> list (str * str) -> World -> CompletedProcess * World).
Context (json_dumps : list (str * Z) -> str).

(** [BondingCurveSaleAnalyzer(output_dir)] *)
Definition new_analyzer (output_dir : str) (st : state World) : state World :=
  emit (MakeDirs output_dir) st.

(** The two charts of the purchase table raise, if they do, before they
    draw. *)
Definition plot_price_progression (output_dir : str) (purchase_df : DataFrame)
    (st : state World) : res (state World) :=
  _ ← getitem purchase_df (lit "scenario");
  _ ← getitem purchase_df (lit "purchase_num");
  _ ← getitem purchase_df (lit "price_in_eth");
  Ok (emit (SaveFig (output_dir ++ lit "/price_progression.png")) st).

(** The table is changed in place: the caller sees the new column. *)
Definition plot_tokens_per_eth (output_dir : str) (purchase_df : DataFrame)
    (st : state World) : res (DataFrame * state World) :=
  purchase_df ← tokens_per_eth purchase_df;
  _ ← getitem purchase_df (lit "scenario");
  _ ← getitem purchase_df (lit "purchase_num");
  Ok (purchase_df, emit (SaveFig (output_dir ++ lit "/tokens_per_eth.png")) st).

(** [col.replace(' ', '_').lower()] *)
Definition chart_name (col : str) : str :=
  map py_lower (map (fun c => if Ascii.eqb c " " then "_"%char else c) col).

(** The loop of [plot_summary_comparisons]: one bar chart per column. *)
Fixpoint plot_bars (output_dir : str) (summary_df : DataFrame) (cols : list str)
    (st : state World) : res unit * state World :=
  match cols with
  | [] => (Ok tt, st)
  | col :: cols' =>
      match (_ ← getitem summary_df (lit "Scenario"); getitem summary_df col) with
      | Raise e => (Raise e, st)
      | Ok _ =>
          plot_bars output_dir summary_df cols'
            (emit (SaveFig (output_dir ++ lit "/" ++ chart_name col ++ lit ".png")) st)
      end
  end.

Definition plot_summary_comparisons (output_dir : str) (summary_df : DataFrame)
    (st : state World) : res unit * state World :=
  plot_bars output_dir summary_df
    [lit "ETH Raised"; lit "Tokens Sold (millions)"; lit "Price Increase (%)"] st.

Definition save_results (output_dir : str) (summary_df purchase_df : DataFrame)
    (st : state World) : state World :=
  let st := emit (MakeDirs output_dir) st in
  let st := emit (WriteFile (output_dir ++ lit "/scenario_summary.csv")) st in
  let st := emit (WriteFile (output_dir ++ lit "/purchase_details.csv")) st in
  let st := emit (WriteFile (output_dir ++ lit "/summary_report.md")) st in
  print (lit "Created summary report at " ++ output_dir ++ lit "/summary_report.md") st.

Definition OUTPUT_DIR : str := lit "./analysis_output".

(** [main] from its list of scenarios on. *)
Definition analyze (scenarios : list scenario) (st : state World)
    : res main_exit * state World :=
  let '(results, st) := run_scenario_tests subprocess_run json_dumps scenarios st in
  match results with
  | [] => (Ok NoValidResults, print (lit "No valid results to analyze. Exiting.") st)
  | _ =>
      let st :=
        print (lit "Successfully parsed " ++ str_of_Z (Z.of_nat (length results)) ++
               lit " scenarios") st in
      match create_summary_table results with
      | Raise e => (Raise e, st)
      | Ok summary_df =>
          match all_purchases results with
          | [] =>
              (Ok NoPurchaseData,
               print (lit "No purchase data found in results. Cannot generate purchase graphs.") st)
          | records =>
              match purchase_units (DataFrame_of_records records) with
              | Raise e => (Raise e, st)
              | Ok purchase_df =>
                  let plotted :=
                    if (1 <? length results)%nat then
                      match plot_price_progression OUTPUT_DIR purchase_df st with
                      | Raise e => (Raise e, st)
                      | Ok st =>
                          match plot_tokens_per_eth OUTPUT_DIR purchase_df st with
                          | Raise e => (Raise e, st)
                          | Ok (purchase_df, st) =>
                              match plot_summary_comparisons OUTPUT_DIR summary_df st with
                              | (Raise e, st) => (Raise e, st)
                              | (Ok _, st) => (Ok purchase_df, st)
                              end
                          end
                      end
                    else (Ok purchase_df, st) in
                  match plotted with
                  | (Raise e, st) => (Raise e, st)
                  | (Ok purchase_df, st) =>
                      let st := save_results OUTPUT_DIR summary_df purchase_df st in
                      let st :=
                        print (lit "Analysis complete! Results saved to " ++ OUTPUT_DIR ++ lit "/") st in
                      let st := print ("010"%char :: lit "Summary table:") st in
                      let st := emit (PrintTable summary_df) st in
                      (Ok (AnalysisComplete summary_df purchase_df), st)
                  end
              end
          end
      end
  end.

Definition SCENARIOS : list scenario :=
  [ Scenario (Some (lit "Standard Sale (0.01% Reserve)"))
      (Some (lit "test_Scenario_EndToEndTokenSale")) None;
    Scenario (Some (lit "Higher Reserve Ratio (0.1%)"))
      (Some (lit "test_Scenario_EndToEndTokenSale"))
      (Some [(lit "reserve_ratio", 1000)]);
    Scenario (Some (lit "Lower Reserve Ratio (0.005%)"))
      (Some (lit "test_Scenario_EndToEndTokenSale"))
      (Some [(lit "reserve_ratio", 50)]);
    Scenario (Some (lit "Higher Initial Supply"))
      (Some (lit "test_Scenario_EndToEndTokenSale"))
      (Some [(lit "initial_tokens", 2000 * 10 ^ 18)]);
    Scenario (Some (lit "Lower Initial Supply"))
      (Some (lit "test_Scenario_EndToEndTokenSale"))
      (Some [(lit "initial_tokens", 500 * 10 ^ 18)]);
    Scenario (Some (lit "Higher Exponent (Quadratic)"))
      (Some (lit "test_Scenario_EndToEndTokenSale"))
      (Some [(lit "exponent", 2 * 10 ^ 18)]) ].

Definition main (st : state World) : res main_exit * state World :=
  analyze SCENARIOS (new_analyzer OUTPUT_DIR st).

End Main.

(** * Definitions for the statements *)

(** ** Positions in a text *)

(** A text that cannot be continued by a character of [cls]: it is over, or
    its first character is outside of [cls]. *)
Definition stops (cls : ascii -> bool) (s : str) : bool :=
  match s with
  | [] => true
  | c :: _ => negb (cls c)
  end.

(** [p in s] *)
Fixpoint occurs (p s : str) : bool :=
  match strip_prefix p s with
  | Some _ => true
  | None =>
      match s with
      | [] => false
      | _ :: s' => occurs p s'
      end
  end.

(** [p] occurs in [x ++ p] before its last position: an occurrence of [p]
    begins inside of [x]. *)
Definition begins_in (p x : str) : bool := occurs p (x ++ removelast p).

(** The two steps of a repetition: take one more character, or stop and
    hand over to the continuation. *)
Section rep_steps.
Context (cls : ascii -> bool) (cap : bool) (k : str -> option result).

Definition rep_more (g : greed) (min : nat) (acc s : str) : option result :=
  match s with
  | c :: s' => if cls c then rep g cls cap k (pred min) (c :: acc) s' else None
  | [] => None
  end.

Definition rep_stop (min : nat) (acc s : str) : option result :=
  match min with
  | O => add_group cap (rev acc) <$> k s
  | S _ => None
  end.

End rep_steps.

(** ** Well-formed harness output

    The shape of the text the harness prints, as section 6 of the
    specification describes it. *)

Definition is_spaces (w : str) : bool := forallb is_space w.

Definition is_number (d : str) : bool :=
  match d with
  | [] => false
  | _ => forallb is_digit d
  end.

(** *** Purchase blocks *)

Definition PURCHASE : str := lit "Purchase #:".
Definition ETH_SPENT : str := lit "ETH spent:".
Definition TOKENS_RECEIVED : str := lit "Tokens received:".
Definition CURRENT_PRICE : str := lit "Current price:".

(** The four numbers of a block as written, and the white space around
    them. *)
Record block := Block {
  b_ws1 : str; b_num : str; b_ws2 : str;
  b_ws3 : str; b_eth : str; b_ws4 : str;
  b_ws5 : str; b_tokens : str; b_ws6 : str;
  b_ws7 : str; b_price : str
}.

Definition render_block (b : block) : str :=
  PURCHASE ++ b_ws1 b ++ b_num b ++ b_ws2 b ++
  ETH_SPENT ++ b_ws3 b ++ b_eth b ++ b_ws4 b ++
  TOKENS_RECEIVED ++ b_ws5 b ++ b_tokens b ++ b_ws6 b ++
  CURRENT_PRICE ++ b_ws7 b ++ b_price b.

Definition block_ok (b : block) : bool :=
  is_spaces (b_ws1 b) && is_number (b_num b) && is_spaces (b_ws2 b) &&
  is_spaces (b_ws3 b) && is_number (b_eth b) && is_spaces (b_ws4 b) &&
  is_spaces (b_ws5 b) && is_number (b_tokens b) && is_spaces (b_ws6 b) &&
  is_spaces (b_ws7 b) && is_number (b_price b).

(** The record a block stands for. *)
Definition block_purchase (b : block) : purchase :=
  {| purchase_num := int_of_digits (b_num b);
     eth_spent := int_of_digits (b_eth b);
     tokens_received := int_of_digits (b_tokens b);
     current_price := int_of_digits (b_price b) |}.

(** What lies between and around the blocks: no block header begins in it,
    and it does not go on with the digits of the price before it. *)
Definition gap_ok (g : str) : bool :=
  negb (begins_in PURCHASE g) && stops is_digit g.

(** A text with the blocks [bs] in this order, [g0] before the first one and
    a gap after each. *)
Definition purchase_text (g0 : str) (bs : list (block * str)) : str :=
  g0 ++ concat (map (fun bg => render_block bg.1 ++ bg.2) bs).

(** *** The summary section *)

(** One line [label: value] and the white space after it. *)
Record line := Line {
  l_label : str; l_gap : str; l_value : str; l_sep : str
}.

Definition render_line (l : line) : str :=
  l_label l ++ lit ":" ++ l_gap l ++ l_value l ++ l_sep l.

(** A label is not empty, has no colon and no white space at either end;
    the value is a run of digits; white space (a line break) follows it. *)
Definition line_ok (l : line) : bool :=
  negb (is_empty (l_label l)) && forallb not_colon (l_label l) &&
  stops is_space (l_label l) && stops is_space (rev (l_label l)) &&
  is_spaces (l_gap l) && is_number (l_value l) &&
  negb (is_empty (l_sep l)) && is_spaces (l_sep l).

Definition summary_body (ls : list line) : str := concat (map render_line ls).

(** The metrics the lines stand for; a later line overwrites an earlier one
    of the same label. *)
Definition line_metrics (ls : list line) : gmap str Z :=
  fold_left (fun m l => <[l_label l := int_of_digits (l_value l)]> m) ls ∅.

(** *** Texts with a summary section, texts with a purchase block *)

(** The text has an opening marker and, somewhere after it, a closing
    marker. *)
Definition has_summary_section (output : str) : Prop :=
  exists pre mid post, output = pre ++ SUMMARY_OPEN ++ mid ++ SUMMARY_CLOSE ++ post.

(** The text has a complete purchase block somewhere. *)
Definition has_purchase_block (output : str) : Prop :=
  exists pre b post, block_ok b = true /\ output = pre ++ render_block b ++ post.

(** The invariant the specification gives for the purchase records of a
    scenario: [purchase_num] counts the records from 1. *)
Definition numbered_from_one (ps : list purchase) : Prop :=
  purchase_num <$> ps = Z.of_nat <$> seq 1 (length ps).

(** ** Sample texts *)

Definition nl : str := ["010"%char].

Definition SAMPLE_BODY : str :=
  nl ++
  lit "Starting price: 100" ++ nl ++
  lit "Final price: 400" ++ nl ++
  lit "Price increase (%): 300" ++ nl ++
  lit "Tokens sold in sale: 1000000000000000000000" ++ nl ++
  lit "Total ETH raised: 50000000000000000000" ++ nl ++
  lit "Effective avg price per token: 50" ++ nl.

Definition SAMPLE_SUMMARY : str :=
  SUMMARY_OPEN ++ SAMPLE_BODY ++ SUMMARY_CLOSE ++ lit " -------" ++ nl.

Definition SAMPLE_PURCHASES : str :=
  lit "Purchase #: 1" ++ nl ++ lit "ETH spent: 1000" ++ nl ++
  lit "Tokens received: 20" ++ nl ++ lit "Current price: 100" ++ nl ++
  lit "Purchase #: 2" ++ nl ++ lit "ETH spent: 2000" ++ nl ++
  lit "Tokens received: 10" ++ nl ++ lit "Current price: 200" ++ nl.

(** The concrete scenario of the specification, with the purchases logged
    before the summary and after it. *)
Definition SAMPLE_OUTPUT : str := SAMPLE_PURCHASES ++ SAMPLE_SUMMARY.
Definition SAMPLE_OUTPUT' : str := SAMPLE_SUMMARY ++ SAMPLE_PURCHASES.

Definition SAMPLE_LINES : list line :=
  [ Line (lit "Starting price") (lit " ") (lit "100") nl;
    Line (lit "Final price") (lit " ") (lit "400") nl;
    Line (lit "Price increase (%)") (lit " ") (lit "300") nl;
    Line (lit "Tokens sold in sale") (lit " ") (lit "1000000000000000000000") nl;
    Line (lit "Total ETH raised") (lit " ") (lit "50000000000000000000") nl;
    Line (lit "Effective avg price per token") (lit " ") (lit "50") nl ].

Definition sample_block (n e t p : string) : block :=
  Block (lit " ") (lit n) nl (lit " ") (lit e) nl (lit " ") (lit t) nl (lit " ") (lit p).

Definition SAMPLE_BLOCKS : list (block * str) :=
  [ (sample_block "1" "1000" "20" "100", nl);
    (sample_block "2" "2000" "10" "200", nl ++ SAMPLE_SUMMARY) ].

Definition SAMPLE_METRICS : gmap str Z :=
  list_to_map
    [ (lit "Starting price", 100); (lit "Final price", 400);
      (lit "Price increase (%)", 300);
      (lit "Tokens sold in sale", 1000000000000000000000);
      (lit "Total ETH raised", 50000000000000000000);
      (lit "Effective avg price per token", 50) ].

Definition SAMPLE_RECORDS : list purchase :=
  [ Purchase 1 1000 20 100; Purchase 2 2000 10 200 ].

(** Two complete blocks that carry the same number. *)
Definition REPEATED_NUMBER_OUTPUT : str :=
  lit "Purchase #: 7" ++ nl ++ lit "ETH spent: 1000" ++ nl ++
  lit "Tokens received: 20" ++ nl ++ lit "Current price: 100" ++ nl ++
  lit "Purchase #: 7" ++ nl ++ lit "ETH spent: 2000" ++ nl ++
  lit "Tokens received: 10" ++ nl ++ lit "Current price: 200" ++ nl ++
  SAMPLE_SUMMARY.

(** ** Tables *)

(** The summary table before its unit conversions: the raw extraction. *)
Definition raw_summary_table (results : list scenario_result) : DataFrame :=
  DataFrame_of_records (map summary_record results).

(** The column of a metric over the scenarios, absent metrics read as 0. *)
Definition metric_column (key : string) (results : list scenario_result) : list cell :=
  map (fun r => get_metric r key) results.

(** The summary table with the converted columns [a], [b], [c] and [d]. *)
Definition summary_table_of (results : list scenario_result) (a b c d : list cell)
    : DataFrame :=
  {| df_rows := length results;
     df_cols :=
       [ (lit "Scenario", map (fun r => CStr (scenario_name r)) results);
         (lit "Initial Price (wei)", metric_column "Starting price" results);
         (lit "Final Price (wei)", metric_column "Final price" results);
         (lit "Price Increase (%)", metric_column "Price increase (%)" results);
         (lit "Tokens Sold", metric_column "Tokens sold in sale" results);
         (lit "ETH Raised", c);
         (lit "Avg Price Per Token (wei)",
          metric_column "Effective avg price per token" results);
         (lit "Initial Price (ETH)", a);
         (lit "Final Price (ETH)", b);
         (lit "Tokens Sold (millions)", d) ] |}.

(** The columns of the raw table. *)
Definition RAW_COLUMNS : list str :=
  [ lit "Scenario"; lit "Initial Price (wei)"; lit "Final Price (wei)";
    lit "Price Increase (%)"; lit "Tokens Sold"; lit "ETH Raised";
    lit "Avg Price Per Token (wei)" ].

Definition SUMMARY_COLUMNS : list str :=
  [ lit "Scenario"; lit "Initial Price (wei)"; lit "Final Price (wei)";
    lit "Price Increase (%)"; lit "Tokens Sold"; lit "ETH Raised";
    lit "Avg Price Per Token (wei)"; lit "Initial Price (ETH)";
    lit "Final Price (ETH)"; lit "Tokens Sold (millions)" ].

(** The columns the raw table and the summary table share, and the metric
    each one holds. *)
Definition RAW_METRIC_COLUMNS : list (string * string) :=
  [ ("Initial Price (wei)", "Starting price");
    ("Final Price (wei)", "Final price");
    ("Price Increase (%)", "Price increase (%)");
    ("Tokens Sold", "Tokens sold in sale");
    ("Avg Price Per Token (wei)", "Effective avg price per token") ]%string.

(** The four metrics that are converted are small enough for a float. *)
Definition fits_float (r : scenario_result) : bool :=
  forallb (fun key => Z.abs (default 0 (summary (data r) !! lit key)) <? FLOAT_OVERFLOW)
    [ "Starting price"; "Final price"; "Total ETH raised"; "Tokens sold in sale" ]%string.

(** A cell that holds zero, as an integer or as a float. *)
Definition is_zero_cell (c : cell) : bool :=
  match c with
  | CInt z => z =? 0
  | CFloat f => PrimFloat.is_zero f
  | CStr _ => false
  end.

(** The columns of the raw table that the summary table keeps as they are. *)
Definition KEPT_COLUMNS : list string :=
  [ "Scenario"; "Initial Price (wei)"; "Final Price (wei)"; "Price Increase (%)";
    "Tokens Sold"; "Avg Price Per Token (wei)" ]%string.

(** The columns the summary table adds: name, raw column, divisor. *)
Definition ADDED_COLUMNS : list (string * string * float) :=
  [ ("Initial Price (ETH)", "Initial Price (wei)", 1e18%float);
    ("Final Price (ETH)", "Final Price (wei)", 1e18%float);
    ("Tokens Sold (millions)", "Tokens Sold", 1e6%float) ]%string.

(** Every column of the summary table that holds a metric, raw or
    converted, with the label of that metric. *)
Definition METRIC_COLUMNS : list (string * string) :=
  [ ("Initial Price (wei)", "Starting price");
    ("Final Price (wei)", "Final price");
    ("Price Increase (%)", "Price increase (%)");
    ("Tokens Sold", "Tokens sold in sale");
    ("ETH Raised", "Total ETH raised");
    ("Avg Price Per Token (wei)", "Effective avg price per token");
    ("Initial Price (ETH)", "Starting price");
    ("Final Price (ETH)", "Final price");
    ("Tokens Sold (millions)", "Tokens sold in sale") ]%string.

(** The result of the concrete scenario. *)
Definition SAMPLE_RESULT : scenario_result :=
  ScenarioResult (Parsed SAMPLE_METRICS SAMPLE_RECORDS) (lit "Standard Sale") SAMPLE_OUTPUT.

(** A scenario whose summary section is empty. *)
Definition EMPTY_RESULT : scenario_result :=
  ScenarioResult (Parsed ∅ []) (lit "Unnamed Scenario") (SUMMARY_OPEN ++ SUMMARY_CLOSE).

(** ** The harness, seen from outside *)

(** The command line and the environment [run_forge_test] hands to
    [subprocess.run]. *)
Definition forge_cmd (test_name : str) : list str :=
  [lit "forge"; lit "test"; lit "--match-test"; test_name; lit "-vvv"].

Definition forge_env (json_dumps : list (str * Z) -> str) (params : list (str * Z))
    : list (str * str) :=
  (lit "FOUNDRY_PROFILE", lit "lifecycle") ::
  match params with
  | [] => []
  | _ => [(lit "TEST_PARAMS", json_dumps params)]
  end.

Definition name_of (sc : scenario) : str := default (lit "Unnamed Scenario") (sc_name sc).

Definition test_name_of (sc : scenario) : str :=
  default (lit "test_Scenario_EndToEndTokenSale") (sc_test_name sc).

Definition params_of (sc : scenario) : list (str * Z) := default [] (sc_params sc).

Section Harness.

Context {World : Type}.
Context (subprocess_run : list str -> list (str * str) -> World -> CompletedProcess * World).
Context (json_dumps : list (str * Z) -> str).

(** What the harness answers when it is run once per scenario, in the order
    of the list, each run in the world the run before it left. *)
Fixpoint harness_runs (scenarios : list scenario) (w : World) : list CompletedProcess :=
  match scenarios with
  | [] => []
  | sc :: scenarios' =>
      let '(p, w') :=
        subprocess_run (forge_cmd (test_name_of sc)) (forge_env json_dumps (params_of sc)) w in
      p :: harness_runs scenarios' w'
  end.

End Harness.

(** The result a scenario contributes when the harness answered [p], if its
    output parses. *)
Definition result_of (sc : scenario) (p : CompletedProcess) : option scenario_result :=
  (fun d => ScenarioResult d (name_of sc) (stdout p)) <$> parse_test_output (stdout p).

Definition is_print (e : event) : bool :=
  match e with
  | Print _ => true
  | _ => false
  end.

(** A harness that answers the process its world holds. *)
Definition replay (cmd : list str) (env : list (str * str)) (p : CompletedProcess)
    : CompletedProcess * CompletedProcess := (p, p).

Definition no_json (params : list (str * Z)) : str := [].

Definition PASSED : CompletedProcess :=
  {| returncode := 0; stdout := SAMPLE_OUTPUT; stderr := [] |}.

Definition FAILED : CompletedProcess :=
  {| returncode := 1; stdout := SAMPLE_OUTPUT; stderr := lit "revert" |}.

(** A purchase of 20 tokens for no ETH, and one of tokens beyond 64 bits. *)
Definition ZERO_ETH_RESULT : scenario_result :=
  ScenarioResult (Parsed ∅ [Purchase 1 0 20 100]) (lit "Free tokens") [].

Definition ZERO_ETH_WEI_RESULT : scenario_result :=
  ScenarioResult (Parsed ∅ [Purchase 1 0 (20 * 10 ^ 18) 100]) (lit "Free tokens") [].

(** The results of [main] when every run of the harness logs an empty
    summary and no purchase. *)
Definition EMPTY_RESULTS : list scenario_result :=
  map (fun sc => ScenarioResult (Parsed ∅ []) (name_of sc) (SUMMARY_OPEN ++ SUMMARY_CLOSE))
    SCENARIOS.

(** The answer of a harness that logs an empty summary and no purchase. *)
Definition EMPTY_RUN : CompletedProcess :=
  {| returncode := 0; stdout := SUMMARY_OPEN ++ SUMMARY_CLOSE; stderr := [] |}.

(** The purchase table of that purchase. *)
Definition ZERO_ETH_TABLE : DataFrame :=
  match create_purchase_dataframe [ZERO_ETH_RESULT] with
  | Ok df => df
  | Raise _ => {| df_rows := 0; df_cols := [] |}
  end.

(** ** Pairs and logs, for the further properties *)

(** A pair as the pair pattern sees it: the text before the colon, the
    white space after it, and the digits. *)
Record pair_text := PairText {
  p_before : str; p_gap : str; p_digits : str
}.

Definition render_pair (p : pair_text) : str :=
  p_before p ++ lit ":" ++ p_gap p ++ p_digits p.

(** The text before the colon is not empty, has no colon and does not go on
    with the digits of the pair before it. *)
Definition pair_ok (p : pair_text) : bool :=
  negb (is_empty (p_before p)) && forallb not_colon (p_before p) &&
  stops is_digit (p_before p) && is_spaces (p_gap p) && is_number (p_digits p).

Definition pairs_body (ps : list pair_text) : str := concat (map render_pair ps).

Definition pair_metrics (ps : list pair_text) : gmap str Z :=
  fold_left (fun m p => <[strip (p_before p) := int_of_digits (p_digits p)]> m) ps ∅.

(** A summary section whose first line carries no number. *)
Definition NOTE_PAIRS : list pair_text :=
  [ PairText (lit "Sale closed" ++ nl ++ lit "Final price") (lit " ") (lit "400");
    PairText (nl ++ lit "Tokens sold in sale") (lit " ") (lit "7") ].






(** Two summary sections, one after the other. *)
Definition TWO_SECTIONS_OUTPUT : str :=
  lit "Logs:" ++ nl ++ SUMMARY_OPEN ++ nl ++ lit "Final price: 400" ++ nl ++
  SUMMARY_CLOSE ++ lit " -------" ++ nl ++ SAMPLE_SUMMARY.

(** ** The purchase table and the converted cells *)

(** The rows of the purchase table: the purchases of the scenarios, one
    scenario after the other, each with the name of its scenario. *)
Definition purchase_rows (results : list scenario_result) : list (str * purchase) :=
  concat (map (fun r => map (fun p => (scenario_name r, p)) (purchases (data r))) results).

Definition field_column (f : purchase -> Z) (rows : list (str * purchase)) : list cell :=
  map (fun np => CInt (f np.2)) rows.

(** [float(z) / d], as a cell. *)
Definition scaled (d : float) (z : Z) : cell := CFloat (float_of_Z z / d).

Definition scaled_column (d : float) (f : purchase -> Z) (rows : list (str * purchase))
    : list cell :=
  map (fun np => scaled d (f np.2)) rows.

Definition PURCHASE_COLUMNS : list str :=
  [ lit "purchase_num"; lit "eth_spent"; lit "tokens_received"; lit "current_price";
    lit "scenario"; lit "eth_spent_in_eth"; lit "tokens_in_millions"; lit "price_in_eth" ].

(** The purchase table of the rows [rows]. *)
Definition purchase_table_of (rows : list (str * purchase)) : DataFrame :=
  {| df_rows := length rows;
     df_cols :=
       [ (lit "purchase_num", field_column purchase_num rows);
         (lit "eth_spent", field_column eth_spent rows);
         (lit "tokens_received", field_column tokens_received rows);
         (lit "current_price", field_column current_price rows);
         (lit "scenario", map (fun np => CStr np.1) rows);
         (lit "eth_spent_in_eth", scaled_column 1e18 eth_spent rows);
         (lit "tokens_in_millions", scaled_column 1e6 tokens_received rows);
         (lit "price_in_eth", scaled_column 1e18 current_price rows) ] |}.

(** The three fields that are converted are small enough for a float. *)
Definition fits_purchase (p : purchase) : bool :=
  (Z.abs (eth_spent p) <? FLOAT_OVERFLOW) && (Z.abs (tokens_received p) <? FLOAT_OVERFLOW) &&
  (Z.abs (current_price p) <? FLOAT_OVERFLOW).

(** A metric converted by [lambda x: x / d if x else 0]. *)
Definition scaled_or_zero (d : float) (z : Z) : cell :=
  if z =? 0 then CInt 0 else scaled d z.

Definition converted_column (d : float) (key : string) (results : list scenario_result)
    : list cell :=
  convert_objects
    (map (fun r => scaled_or_zero d (default 0 (summary (data r) !! lit key))) results).

(** A result with a metric too large for a float. *)
Definition HUGE_RESULT : scenario_result :=
  ScenarioResult (Parsed {[ lit "Final price" := 2 ^ 1024 ]} []) (lit "Huge") [].

Definition is_report (e : event) : bool :=
  match e with
  | WriteFile _ => true
  | _ => false
  end.

Definition is_chart (e : event) : bool :=
  match e with
  | SaveFig _ => true
  | _ => false
  end.

(** The purchases of a batch, one scenario after the other. *)
Definition batch_purchases (results : list scenario_result) : list purchase :=
  concat (map (fun r => purchases (data r)) results).

(** The converted columns of the summary table: name, metric, divisor. *)
Definition CONVERTED_COLUMNS : list (string * string * float) :=
  [ ("Initial Price (ETH)", "Starting price", 1e18%float);
    ("Final Price (ETH)", "Final price", 1e18%float);
    ("ETH Raised", "Total ETH raised", 1e18%float);
    ("Tokens Sold (millions)", "Tokens sold in sale", 1e6%float) ]%string.

(** The converted columns of the purchase table: name, field, divisor. *)
Definition CONVERTED_FIELDS : list (string * (purchase -> Z) * float) :=
  [ ("eth_spent_in_eth", eth_spent, 1e18%float);
    ("tokens_in_millions", tokens_received, 1e6%float);
    ("price_in_eth", current_price, 1e18%float) ]%string.

Definition RAW_FIELDS : list (string * (purchase -> Z)) :=
  [ ("purchase_num", purchase_num); ("eth_spent", eth_spent);
    ("tokens_received", tokens_received); ("current_price", current_price) ]%string.

(** A batch of three results, the second one without purchases, and its
    purchase table. *)
Definition SAMPLE_BATCH : list scenario_result :=
  [ SAMPLE_RESULT; EMPTY_RESULT; SAMPLE_RESULT ].

Definition SAMPLE_PURCHASE_TABLE : DataFrame := purchase_table_of (purchase_rows SAMPLE_BATCH).

(** The purchase table of a purchase of tokens beyond 64 bits for no ETH. *)
Definition OBJECT_TABLE : DataFrame := purchase_table_of (purchase_rows [ZERO_ETH_WEI_RESULT]).

(** ** The outcome of [main] *)






(** * Properties *)

(** ** Characters and prefixes *)

Lemma strip_prefix_app (p s : str) : strip_prefix p (p ++ s) = Some s.
Proof.
  induction p as [|a p IH]; simpl; [done|].
  by rewrite Ascii.eqb_refl.
Qed.

Lemma strip_prefix_Some (p s s' : str) : strip_prefix p s = Some s' -> s = p ++ s'.
Proof.
  revert s; induction p as [|a p IH]; intros s; simpl.
  - by intros [= ->].
  - destruct s as [|b s]; [done|].
    destruct (Ascii.eqb a b) eqn:E; [|done].
    apply Ascii.eqb_eq in E as ->. intros H. by rewrite (IH _ H).
Qed.

Lemma strip_prefix_None (p s : str) :
  strip_prefix p s = None <-> forall s', s <> p ++ s'.
Proof.
  split.
  - intros H s' ->. by rewrite strip_prefix_app in H.
  - intros H. destruct (strip_prefix p s) as [s'|] eqn:E; [|done].
    by apply strip_prefix_Some, H in E.
Qed.


Lemma space_not_digit c : is_space c = true -> is_digit c = false.
Proof.
  unfold is_space, is_digit. generalize (code c) as n. intros n H.
  apply andb_false_iff. rewrite !N.leb_gt.
  rewrite !orb_true_iff, !andb_true_iff, !N.leb_le, !N.eqb_eq in H. lia.
Qed.

Lemma digit_not_space c : is_digit c = true -> is_space c = false.
Proof.
  intros H. destruct (is_space c) eqn:E; [|done].
  apply space_not_digit in E. congruence.
Qed.

Lemma stops_app_nonempty cls (w s : str) : w <> [] -> stops cls (w ++ s) = stops cls w.
Proof. by destruct w. Qed.

Lemma stops_digit_spaces (w s : str) :
  forallb is_space w = true -> stops is_digit s = true -> stops is_digit (w ++ s) = true.
Proof.
  destruct w as [|c w]; [done|]. simpl. intros [H _]%andb_true_iff _.
  by rewrite (space_not_digit _ H).
Qed.

Lemma stops_space_digits (d s : str) :
  d <> [] -> forallb is_digit d = true -> stops is_space (d ++ s) = true.
Proof.
  destruct d as [|c d]; [done|]. simpl. intros _ [H _]%andb_true_iff.
  by rewrite (digit_not_space _ H).
Qed.

(** ** The matcher *)

Module ReFacts.

Section rep.
Context (cls : ascii -> bool) (cap : bool) (k : str -> option result).

Local Abbreviation more := (rep_more cls cap k).
Local Abbreviation stop := (rep_stop cap k).


Lemma rep_eq g min acc s :
  rep g cls cap k min acc s =
    match g with
    | Greedy => match more g min acc s with Some r => Some r | None => stop min acc s end
    | Lazy => match stop min acc s with Some r => Some r | None => more g min acc s end
    end.
Proof. by destruct s, g. Qed.

Lemma stop_sound min acc s r :
  stop min acc s = Some r ->
  exists w s' r',
    s = w ++ s' /\ forallb cls w = true /\ (min <= length w)%nat /\
    k s' = Some r' /\ r = add_group cap (rev acc ++ w) r'.
Proof.
  unfold rep_stop. destruct min; [|done]. intros (r' & Hk & ->)%fmap_Some.
  exists [], s, r'. rewrite app_nil_r. repeat split; done.
Qed.

(** Whatever [rep] returns comes from a run of [cls] of at least [min]
    characters followed by a success of the continuation. *)
Lemma rep_sound g min acc s r :
  rep g cls cap k min acc s = Some r ->
  exists w s' r',
    s = w ++ s' /\ forallb cls w = true /\ (min <= length w)%nat /\
    k s' = Some r' /\ r = add_group cap (rev acc ++ w) r'.
Proof.
  revert min acc. induction s as [|c s IH]; intros min acc; rewrite rep_eq.
  - change (more g min acc []) with (@None result).
    destruct g; [apply stop_sound|].
    destruct (stop min acc []) eqn:E; [|done].
    intros [= <-]. by apply stop_sound.
  - assert (more g min acc (c :: s) = Some r ->
      exists w s' r', c :: s = w ++ s' /\ forallb cls w = true /\ (min <= length w)%nat /\
        k s' = Some r' /\ r = add_group cap (rev acc ++ w) r') as Hmore.
    { simpl. destruct (cls c) eqn:Hc; [|done].
      intros (w & s' & r' & -> & Hw & Hmin & Hk & ->)%IH.
      exists (c :: w), s', r'. simpl. rewrite Hc, Hw, <- app_assoc. simpl.
      repeat split; [lia|done]. }
    destruct g.
    + destruct (more Greedy min acc (c :: s)) eqn:E; [intros [= <-]; by apply Hmore|].
      apply stop_sound.
    + destruct (stop min acc (c :: s)) eqn:E; [intros [= <-]; by apply stop_sound|done].
Qed.

(** Backtracking is exhaustive: if some run of [cls] is followed by a
    success of the continuation, [rep] succeeds. *)
Lemma rep_complete g min acc w s' :
  forallb cls w = true -> (min <= length w)%nat -> is_Some (k s') ->
  is_Some (rep g cls cap k min acc (w ++ s')).
Proof.
  intros Hw Hmin Hk. revert min acc Hw Hmin.
  induction w as [|c w IH]; intros min acc Hw Hmin; rewrite rep_eq.
  - simpl in Hmin. assert (min = O) as -> by lia.
    assert (is_Some (stop 0 acc s')) as [r Hr].
    { unfold rep_stop. by apply fmap_is_Some. }
    simpl app. rewrite Hr. destruct g; [destruct (more _ _ _ _)|]; done.
  - simpl in Hw. apply andb_true_iff in Hw as [Hc Hw].
    assert (is_Some (more g min acc ((c :: w) ++ s'))) as [r Hr].
    { simpl. rewrite Hc. apply IH; [done|simpl in Hmin; lia]. }
    rewrite Hr. destruct g; [|destruct (stop _ _ _)]; done.
Qed.

(** A greedy repetition keeps the whole run when the continuation accepts
    what follows it. *)
Lemma rep_greedy_max min acc w s' r' :
  forallb cls w = true -> stops cls s' = true -> (min <= length w)%nat ->
  k s' = Some r' ->
  rep Greedy cls cap k min acc (w ++ s') = Some (add_group cap (rev acc ++ w) r').
Proof.
  intros Hw Hs' Hmin Hk. revert min acc Hw Hmin.
  induction w as [|c w IH]; intros min acc Hw Hmin; rewrite rep_eq.
  - simpl in Hmin. assert (min = O) as -> by lia. simpl app.
    assert (more Greedy 0 acc s' = None) as ->.
    { destruct s' as [|c s']; [done|]. simpl in *. by destruct (cls c). }
    unfold rep_stop. by rewrite Hk, app_nil_r.
  - simpl in Hw. apply andb_true_iff in Hw as [Hc Hw].
    simpl. rewrite Hc, IH; [|done|simpl in Hmin; lia].
    simpl. by rewrite <- app_assoc.
Qed.

(** A greedy repetition fails when the run is too short or when the
    continuation refuses every split of the run. *)
Lemma rep_greedy_fail min acc w s' :
  forallb cls w = true -> stops cls s' = true ->
  (forall w1 w2, w = w1 ++ w2 -> (min <= length (rev acc) + length w1)%nat -> k (w2 ++ s') = None) ->
  rep Greedy cls cap k (min - length (rev acc)) acc (w ++ s') = None.
Proof.
  intros Hw Hs'. revert acc Hw.
  induction w as [|c w IH]; intros acc Hw Hk; rewrite rep_eq.
  - simpl app.
    assert (more Greedy (min - length (rev acc)) acc s' = None) as ->.
    { destruct s' as [|c s']; [done|]. simpl in *. by destruct (cls c). }
    unfold rep_stop. destruct (min - length (rev acc))%nat eqn:E; [|done].
    assert (k s' = None) as -> by (apply (Hk [] []); [done|simpl; lia]). done.
  - simpl in Hw. apply andb_true_iff in Hw as [Hc Hw].
    assert (more Greedy (min - length (rev acc)) acc ((c :: w) ++ s') = None) as ->.
    { simpl. rewrite Hc.
      replace (pred (min - length (rev acc)))%nat with (min - length (rev (c :: acc)))%nat
        by (simpl; rewrite length_app; simpl; lia).
      apply IH; [done|]. intros w1 w2 -> Hlen. apply (Hk (c :: w1) w2); [done|].
      simpl in *. rewrite length_app in Hlen. simpl in Hlen. lia. }
    unfold rep_stop. destruct (min - length (rev acc))%nat eqn:E; [|done].
    rewrite (Hk [] (c :: w)); [done|done|simpl; lia].
Qed.

(** A lazy repetition stops at the first place where the continuation
    succeeds. *)
Lemma rep_lazy_first acc w s' r' :
  forallb cls w = true ->
  (forall w1 w2, w = w1 ++ w2 -> w2 <> [] -> k (w2 ++ s') = None) ->
  k s' = Some r' ->
  rep Lazy cls cap k 0 acc (w ++ s') = Some (add_group cap (rev acc ++ w) r').
Proof.
  intros Hw Hfirst Hk. revert acc Hw Hfirst.
  induction w as [|c w IH]; intros acc Hw Hfirst; rewrite rep_eq.
  - unfold rep_stop. simpl app. by rewrite Hk, app_nil_r.
  - simpl in Hw. apply andb_true_iff in Hw as [Hc Hw].
    unfold rep_stop. rewrite (Hfirst [] (c :: w)); [|done..].
    simpl. rewrite Hc, IH; [|done|].
    + simpl. by rewrite <- app_assoc.
    + intros w1 w2 -> Hne. by apply (Hfirst (c :: w1) w2).
Qed.

End rep.

End ReFacts.

(** ** Occurrences of a literal *)


Lemma occurs_false (p s : str) :
  occurs p s = false <-> forall a b, s = a ++ b -> strip_prefix p b = None.
Proof.
  induction s as [|c s IH]; simpl.
  - destruct (strip_prefix p []) eqn:E; split; try done.
    + intros H. by rewrite (H [] []) in E.
    + intros _ a b Hab. symmetry in Hab. by apply app_eq_nil in Hab as [_ ->].
  - destruct (strip_prefix p (c :: s)) eqn:E; split; try done.
    + intros H. by rewrite (H [] (c :: s)) in E.
    + intros H [|a' a] b Hab; simpl in Hab.
      * by subst b.
      * injection Hab as -> ->. by apply (proj1 IH H a b).
    + intros H. apply IH. intros a b ->. by apply (H (c :: a) b).
Qed.

Lemma strip_prefix_extend (p x y r : str) :
  strip_prefix p x = Some r -> strip_prefix p (x ++ y) = Some (r ++ y).
Proof.
  intros ->%strip_prefix_Some. by rewrite <- app_assoc, strip_prefix_app.
Qed.

Lemma strip_prefix_within (p x y : str) :
  is_Some (strip_prefix p (x ++ y)) -> (length p <= length x)%nat ->
  is_Some (strip_prefix p x).
Proof.
  revert x. induction p as [|a p IH]; intros x; simpl; [done|].
  destruct x as [|b x]; simpl; [lia|].
  destruct (Ascii.eqb a b); [|done]. intros H Hlen. apply IH; [done|lia].
Qed.

(** When no occurrence of [p] begins inside of [g], the literal [p] cannot be
    read at any position of [g], whether the text ends after [g] or goes on
    with [p] itself. *)
Lemma begins_in_false (p g rest : str) :
  p <> [] -> begins_in p g = false ->
  rest = [] \/ (exists r, rest = p ++ r) ->
  forall a b, g = a ++ b -> b <> [] -> strip_prefix p (b ++ rest) = None.
Proof.
  intros Hp Hg Hrest a b -> Hb. unfold begins_in in Hg.
  rewrite occurs_false in Hg.
  specialize (Hg a (b ++ removelast p)). rewrite <- app_assoc in Hg.
  specialize (Hg eq_refl).
  destruct (strip_prefix p (b ++ rest)) as [x|] eqn:E; [exfalso|done].
  destruct Hrest as [->|[r ->]].
  - rewrite app_nil_r in E. apply (strip_prefix_extend _ _ (removelast p)) in E. congruence.
  - assert (is_Some (strip_prefix p (b ++ removelast p))) as [y Hy]; [|congruence].
    apply (strip_prefix_within _ _ ([List.last p "000"%char] ++ r)).
    + rewrite <- app_assoc, (app_assoc (removelast p)), <- app_removelast_last by done. eauto.
    + rewrite length_app. destruct b; [done|]. simpl.
      assert (length p = S (length (removelast p))); [|lia].
      rewrite (app_removelast_last "000"%char Hp) at 1. rewrite length_app. simpl. lia.
Qed.

(** ** Searching and scanning *)

Module ScanFacts.

Section scan.
Context (re : regex).

Lemma match_here_lit l re' s : match_here (Lit l :: re') (l ++ s) = match_here re' s.
Proof. simpl. by rewrite strip_prefix_app. Qed.

Lemma search_here s r : match_here re s = Some r -> search re s = Some r.
Proof. intros H. destruct s; simpl; by rewrite H. Qed.

Lemma search_skip pre s :
  (forall a b, pre = a ++ b -> b <> [] -> match_here re (b ++ s) = None) ->
  search re (pre ++ s) = search re s.
Proof.
  induction pre as [|c pre IH]; intros H; [done|].
  simpl. change (c :: pre ++ s) with ((c :: pre) ++ s).
  rewrite (H [] (c :: pre)); [|done..].
  apply IH. intros a b -> Hb. by apply (H (c :: a) b).
Qed.

Lemma search_None s :
  search re s = None <-> forall a b, s = a ++ b -> match_here re b = None.
Proof.
  induction s as [|c s IH]; simpl.
  - destruct (match_here re []) eqn:E; split; try done.
    + intros H. by rewrite (H [] []) in E.
    + intros _ a b Hab. symmetry in Hab. by apply app_eq_nil in Hab as [_ ->].
  - destruct (match_here re (c :: s)) eqn:E; split; try done.
    + intros H. by rewrite (H [] (c :: s)) in E.
    + intros H [|a' a] b Hab; simpl in Hab.
      * by subst b.
      * injection Hab as -> ->. by apply (proj1 IH H a b).
    + intros H. apply IH. intros a b ->. by apply (H (c :: a) b).
Qed.

Lemma findall_from_skip a s :
  findall_from re (length a) (a ++ s) = findall_from re 0 s.
Proof. induction a as [|c a IH]; [done|]. simpl. apply IH. Qed.

(** No match begins in [g]: the scan passes over it. *)
Lemma findall_gap g s :
  (forall a b, g = a ++ b -> b <> [] -> match_here re (b ++ s) = None) ->
  findall_from re 0 (g ++ s) = findall_from re 0 s.
Proof.
  induction g as [|c g IH]; intros H; [done|].
  simpl. change (c :: g ++ s) with ((c :: g) ++ s).
  rewrite (H [] (c :: g)); [|done..].
  apply IH. intros a b -> Hb. by apply (H (c :: a) b).
Qed.

(** A match of the characters [m] is recorded and the scan resumes after it. *)
Lemma findall_hit m s groups :
  m <> [] -> match_here re (m ++ s) = Some (groups, s) ->
  findall_from re 0 (m ++ s) = groups :: findall_from re 0 s.
Proof.
  destruct m as [|c m]; [done|]. intros _ H.
  change (findall_from re 0 ((c :: m) ++ s)) with
    (match match_here re ((c :: m) ++ s) with
     | Some (groups, rest) =>
         groups :: findall_from re (length ((c :: m) ++ s) - length rest - 1) (m ++ s)
     | None => findall_from re 0 (m ++ s)
     end).
  rewrite H. f_equal.
  replace (length ((c :: m) ++ s) - length s - 1)%nat with (length m)
    by (simpl; rewrite length_app; lia).
  apply findall_from_skip.
Qed.

Lemma findall_none s :
  (forall a b, s = a ++ b -> match_here re b = None) -> findall re s = [].
Proof.
  unfold findall. induction s as [|c s IH]; intros H; simpl.
  - by rewrite (H [] []).
  - rewrite (H [] (c :: s)) by done. apply IH. intros a b ->. by apply (H (c :: a) b).
Qed.

End scan.

End ScanFacts.


(** ** The patterns on well-formed text *)

Module PatternFacts.
Import ReFacts ScanFacts.

Lemma is_number_spec d : is_number d = true -> d <> [] /\ forallb is_digit d = true.
Proof. by destruct d. Qed.

Lemma stops_app cls (g x : str) :
  stops cls g = true -> stops cls x = true -> stops cls (g ++ x) = true.
Proof. by destruct g. Qed.

Lemma space_not_colon c : is_space c = true -> not_colon c = true.
Proof.
  unfold is_space, not_colon. generalize (code c) as n. intros n H.
  apply negb_true_iff, N.eqb_neq.
  rewrite !orb_true_iff, !andb_true_iff, !N.leb_le, !N.eqb_eq in H. lia.
Qed.

Lemma mh_lit l re s r :
  match_here re s = Some r -> match_here (Lit l :: re) (l ++ s) = Some r.
Proof. intros H. by rewrite match_here_lit. Qed.

Lemma mh_skip cls min re w s r :
  forallb cls w = true -> stops cls s = true -> (min <= length w)%nat ->
  match_here re s = Some r ->
  match_here (Rep Greedy min cls false :: re) (w ++ s) = Some r.
Proof. intros Hw Hs Hmin Hk. simpl. by rewrite (rep_greedy_max _ _ _ _ _ _ _ r). Qed.

Lemma mh_group cls min re w s groups rest :
  forallb cls w = true -> stops cls s = true -> (min <= length w)%nat ->
  match_here re s = Some (groups, rest) ->
  match_here (Rep Greedy min cls true :: re) (w ++ s) = Some (w :: groups, rest).
Proof.
  intros Hw Hs Hmin Hk. simpl. by rewrite (rep_greedy_max _ _ _ _ _ _ _ (groups, rest)).
Qed.

(** The purchase pattern reads a well-formed block as its four numbers. *)
Lemma match_block b rest :
  block_ok b = true -> stops is_digit rest = true ->
  match_here purchase_re (render_block b ++ rest) =
    Some ([b_num b; b_eth b; b_tokens b; b_price b], rest).
Proof.
  unfold block_ok. rewrite !andb_true_iff.
  intros [[[[[[[[[[H1 [N1 D1]%is_number_spec] H2] H3] [N2 D2]%is_number_spec] H4] H5]
    [N3 D3]%is_number_spec] H6] H7] [N4 D4]%is_number_spec] Hrest.
  unfold render_block, purchase_re. rewrite <- !app_assoc.
  assert (forall d : str, d <> [] -> (1 <= length d)%nat) as Hlen.
  { intros [|? ?]; [done|simpl; lia]. }
  apply mh_lit.
  apply mh_skip; [done|by apply stops_space_digits|simpl; lia|].
  apply mh_group; [done|by apply stops_digit_spaces|by apply Hlen|].
  apply mh_skip; [done|done|simpl; lia|].
  apply mh_lit.
  apply mh_skip; [done|by apply stops_space_digits|simpl; lia|].
  apply mh_group; [done|by apply stops_digit_spaces|by apply Hlen|].
  apply mh_skip; [done|done|simpl; lia|].
  apply mh_lit.
  apply mh_skip; [done|by apply stops_space_digits|simpl; lia|].
  apply mh_group; [done|by apply stops_digit_spaces|by apply Hlen|].
  apply mh_skip; [done|done|simpl; lia|].
  apply mh_lit.
  apply mh_skip; [done|by apply stops_space_digits|simpl; lia|].
  apply mh_group; [done|done|by apply Hlen|].
  done.
Qed.

Lemma match_purchase_None s :
  strip_prefix PURCHASE s = None -> match_here purchase_re s = None.
Proof.
  intros H.
  change (match_here purchase_re s) with
    (match strip_prefix PURCHASE s with
     | Some s' => match_here (tl purchase_re) s'
     | None => None
     end).
  by rewrite H.
Qed.

Lemma render_block_nonempty b : render_block b <> [].
Proof. done. Qed.

Lemma purchase_text_shape (bs : list (block * str)) :
  concat (map (fun bg : block * str => render_block bg.1 ++ bg.2) bs) = [] \/
  exists r, concat (map (fun bg : block * str => render_block bg.1 ++ bg.2) bs) = PURCHASE ++ r.
Proof.
  destruct bs as [|[b g'] bs]; [by left|right]. simpl.
  unfold render_block. rewrite <- !app_assoc. eauto.
Qed.

(** The scan of a text of blocks and gaps finds the blocks, in order. *)
Lemma findall_purchase_text g0 bs :
  negb (begins_in PURCHASE g0) = true ->
  forallb (fun bg => block_ok bg.1 && gap_ok bg.2) bs = true ->
  findall purchase_re (purchase_text g0 bs) =
    map (fun bg => [b_num bg.1; b_eth bg.1; b_tokens bg.1; b_price bg.1]) bs.
Proof.
  unfold findall, purchase_text. revert g0.
  induction bs as [|[b g] bs IH]; intros g0 Hg0 Hbs; apply negb_true_iff in Hg0.
  - simpl. rewrite app_nil_r. apply (findall_none purchase_re).
    intros a s ->. apply match_purchase_None.
    destruct (decide (s = [])) as [->|Hs]; [done|].
    rewrite <- (app_nil_r s).
    by apply (begins_in_false PURCHASE (a ++ s) [] ltac:(done) Hg0 ltac:(by left) a s).
  - simpl in Hbs. rewrite !andb_true_iff in Hbs. destruct Hbs as [[Hb Hg] Hbs].
    unfold gap_ok in Hg. apply andb_true_iff in Hg as [Hg Hgd].
    cbn [map concat fst snd]. rewrite findall_gap.
    + rewrite <- app_assoc. rewrite (findall_hit purchase_re _ _ [b_num b; b_eth b; b_tokens b; b_price b]).
      * f_equal. by apply IH.
      * apply render_block_nonempty.
      * apply match_block; [done|]. apply stops_app; [done|].
        destruct (purchase_text_shape bs) as [->|[r ->]]; done.
    + intros a s -> Hs. apply match_purchase_None.
      apply (begins_in_false PURCHASE (a ++ s) _ ltac:(done) Hg0) with (a := a); [|done..].
      right. unfold render_block. rewrite <- !app_assoc. eauto.
Qed.

(** *** The summary pattern *)

Lemma mh_lit_None l re s :
  strip_prefix l s = None -> match_here (Lit l :: re) s = None.
Proof. intros H. simpl. by rewrite H. Qed.

Lemma mh_lazy_group cls re w s groups rest :
  forallb cls w = true ->
  (forall w1 w2, w = w1 ++ w2 -> w2 <> [] -> match_here re (w2 ++ s) = None) ->
  match_here re s = Some (groups, rest) ->
  match_here (Rep Lazy 0 cls true :: re) (w ++ s) = Some (w :: groups, rest).
Proof.
  intros Hw Hfirst Hk. simpl.
  by rewrite (rep_lazy_first _ _ _ _ _ _ (groups, rest)).
Qed.

Lemma forallb_any_char (s : str) : forallb any_char s = true.
Proof. by induction s. Qed.

(** The summary pattern finds the section opened by the first opening
    marker and closed by the first closing marker after it; its group is
    what lies between them, without the white space after the opening
    marker. *)
Lemma find_summary_section pre w body post :
  begins_in SUMMARY_OPEN pre = false -> is_spaces w = true ->
  stops is_space body = true -> begins_in SUMMARY_CLOSE body = false ->
  find_summary (pre ++ SUMMARY_OPEN ++ w ++ body ++ SUMMARY_CLOSE ++ post) = Some body.
Proof.
  intros Hpre Hw Hbody Hclose. unfold find_summary.
  rewrite search_skip.
  - rewrite (search_here _ _ ([body], post)); [done|].
    unfold summary_re. apply mh_lit.
    apply mh_skip; [done| |simpl; lia|].
    { by apply stops_app. }
    apply mh_lazy_group; [apply forallb_any_char| |].
    + intros w1 w2 -> Hw2. apply mh_lit_None.
      apply (begins_in_false SUMMARY_CLOSE (w1 ++ w2) _ ltac:(done) Hclose) with (a := w1);
        [eauto|done..].
    + by apply mh_lit.
  - intros a b -> Hb. apply mh_lit_None.
    apply (begins_in_false SUMMARY_OPEN (a ++ b) _ ltac:(done) Hpre) with (a := a);
      [eauto|done..].
Qed.

(** *** The pair pattern *)

Lemma lstrip_spaces w s :
  is_spaces w = true -> stops is_space s = true -> lstrip (w ++ s) = s.
Proof.
  intros Hw Hs. induction w as [|c w IH]; simpl.
  - destruct s as [|c s]; [done|]. simpl in *. by destruct (is_space c).
  - simpl in Hw. apply andb_true_iff in Hw as [-> Hw]. by apply IH.
Qed.

Lemma strip_label w l :
  is_spaces w = true -> stops is_space l = true -> stops is_space (rev l) = true ->
  strip (w ++ l) = l.
Proof.
  intros Hw Hl Hr. unfold strip, rstrip. rewrite lstrip_spaces by done.
  pose proof (lstrip_spaces [] (rev l) eq_refl Hr) as E. simpl in E.
  rewrite E. apply rev_involutive.
Qed.

Lemma not_colon_eqb c : not_colon c = true -> Ascii.eqb ":"%char c = false.
Proof.
  intros H. destruct (Ascii.eqb_spec ":"%char c) as [<-|]; [|done].
  by vm_compute in H.
Qed.

Lemma spaces_not_colon (w : str) : is_spaces w = true -> forallb not_colon w = true.
Proof.
  unfold is_spaces. rewrite !forallb_forall. intros H c Hc.
  by apply space_not_colon, H.
Qed.

(** Without a colon there is no pair. *)
Lemma match_pair_None (s : str) :
  forallb not_colon s = true -> match_here pair_re s = None.
Proof.
  intros Hs. rewrite <- (app_nil_r s).
  apply (rep_greedy_fail not_colon true _ 1 [] s []); [done..|].
  intros w1 w2 -> _.
  rewrite forallb_app in Hs. apply andb_true_iff in Hs as [_ Hs].
  destruct w2 as [|c w2]; [done|]. simpl in Hs. apply andb_true_iff in Hs as [Hc _].
  cbn [strip_prefix app lit list_ascii_of_string]. by rewrite (not_colon_eqb _ Hc).
Qed.

Lemma line_ok_spec l :
  line_ok l = true ->
  l_label l <> [] /\ forallb not_colon (l_label l) = true /\
  stops is_space (l_label l) = true /\ stops is_space (rev (l_label l)) = true /\
  is_spaces (l_gap l) = true /\ l_value l <> [] /\ forallb is_digit (l_value l) = true /\
  l_sep l <> [] /\ is_spaces (l_sep l) = true.
Proof.
  unfold line_ok. rewrite !andb_true_iff, !negb_true_iff.
  intros [[[[[[[H1 H2] H3] H4] H5] [H6 H7]%is_number_spec] H8] H9].
  repeat split; try done.
  - by destruct (l_label l).
  - by destruct (l_sep l).
Qed.

(** The pair pattern reads a well-formed line, whatever white space comes
    before it, as its label (with that white space) and its value. *)
Lemma match_pair ws l rest :
  is_spaces ws = true -> line_ok l = true ->
  match_here pair_re
    ((ws ++ l_label l ++ lit ":" ++ l_gap l ++ l_value l) ++ l_sep l ++ rest) =
    Some ([ws ++ l_label l; l_value l], l_sep l ++ rest).
Proof.
  intros Hws (Hl & Hnc & _ & _ & Hgap & Hv & Hd & Hsep & Hsepw)%line_ok_spec.
  unfold pair_re. rewrite <- !app_assoc, (app_assoc ws).
  apply mh_group.
  - rewrite forallb_app. by rewrite spaces_not_colon.
  - done.
  - rewrite length_app. destruct (l_label l); [done|simpl; lia].
  - apply mh_lit. apply mh_skip; [done|by apply stops_space_digits|simpl; lia|].
    apply mh_group; [done| |destruct (l_value l); [done|simpl; lia]|done].
    destruct (l_sep l) as [|c sep]; [done|]. simpl in *.
    apply andb_true_iff in Hsepw as [Hc _]. by rewrite (space_not_digit _ Hc).
Qed.

(** The metrics read from a well-formed summary body are those of its
    lines. *)
Lemma fold_metrics_lines (ws : str) (ls : list line) (m : gmap str Z) :
  is_spaces ws = true -> forallb line_ok ls = true ->
  fold_left add_metric (findall_from pair_re 0 (ws ++ summary_body ls)) m =
    fold_left (fun m l => <[l_label l := int_of_digits (l_value l)]> m) ls m.
Proof.
  revert ws m. induction ls as [|l ls IH]; intros ws m Hws Hls.
  - unfold summary_body. simpl. rewrite app_nil_r.
    change (findall_from pair_re 0 ws) with (findall pair_re ws).
    rewrite findall_none; [done|].
    intros a b ->. apply match_pair_None.
    apply spaces_not_colon in Hws. rewrite forallb_app in Hws.
    by apply andb_true_iff in Hws as [_ ?].
  - simpl in Hls. apply andb_true_iff in Hls as [Hl Hls].
    unfold summary_body. cbn [map concat]. fold (summary_body ls).
    replace (ws ++ render_line l ++ summary_body ls) with
      ((ws ++ l_label l ++ lit ":" ++ l_gap l ++ l_value l) ++ l_sep l ++ summary_body ls)
      by (unfold render_line; by rewrite <- !app_assoc).
    pose proof (line_ok_spec _ Hl) as (Hne & _ & Hs1 & Hs2 & _ & _ & _ & _ & Hsep).
    rewrite (findall_hit pair_re _ _ [ws ++ l_label l; l_value l]).
    + cbn [fold_left]. rewrite IH by done.
      f_equal. unfold add_metric, group. cbn [nth].
      by rewrite strip_label.
    + destruct ws, (l_label l); done.
    + by apply match_pair.
Qed.

Lemma parse_metrics_lines ls :
  forallb line_ok ls = true -> parse_metrics (summary_body ls) = line_metrics ls.
Proof. intros H. by apply (fold_metrics_lines [] ls ∅). Qed.

Lemma dom_fold_lines (ls : list line) (m : gmap str Z) :
  dom (fold_left (fun m l => <[l_label l := int_of_digits (l_value l)]> m) ls m) =
    list_to_set (l_label <$> ls) ∪ dom m.
Proof.
  revert m. induction ls as [|l ls IH]; intros m; simpl.
  - by rewrite (left_id_L ∅ (∪)).
  - rewrite IH, dom_insert_L.
    by rewrite (assoc_L (∪)), (comm_L (∪) (list_to_set _) {[l_label l]}).
Qed.

Lemma dom_line_metrics ls : dom (line_metrics ls) = list_to_set (l_label <$> ls).
Proof.
  unfold line_metrics. by rewrite dom_fold_lines, dom_empty_L, (right_id_L ∅ (∪)).
Qed.

Lemma summary_body_stops ls :
  forallb line_ok ls = true -> stops is_space (summary_body ls) = true.
Proof.
  destruct ls as [|l ls]; [done|]. simpl.
  intros [(Hne & _ & Hs & _)%line_ok_spec _]%andb_true_iff.
  unfold summary_body, render_line. cbn [map concat]. rewrite <- !app_assoc.
  by rewrite stops_app_nonempty.
Qed.

End PatternFacts.

(** * The extraction claims *)

Section Extraction.
Import PatternFacts.

Lemma parse_purchases_text g0 bs :
  begins_in PURCHASE g0 = false ->
  forallb (fun bg : block * str => block_ok bg.1 && gap_ok bg.2) bs = true ->
  parse_purchases (purchase_text g0 bs) = block_purchase <$> bs.*1.
Proof.
  intros Hg0 Hbs. unfold parse_purchases.
  rewrite findall_purchase_text; [|by rewrite Hg0|done].
  clear. induction bs as [|bg bs IH]; [done|]. simpl. by rewrite IH.
Qed.

(** C1.  A raw text with a well-formed summary section (the first opening
    marker, white space, lines [label: value], the first closing marker) and
    exactly the well-formed purchase blocks [blocks], with gaps between them
    in which no block begins, is parsed: the keys of the summary mapping are
    exactly the labels of the lines between the two markers (each with the
    value of its last line), and the purchase list has one record per block,
    in the order of the blocks in the text. *)
Theorem parse_well_formed_output (pre w post g0 : str) (lines : list line)
    (blocks : list (block * str)) :
  begins_in SUMMARY_OPEN pre = false ->
  is_spaces w = true ->
  forallb line_ok lines = true ->
  begins_in SUMMARY_CLOSE (summary_body lines) = false ->
  begins_in PURCHASE g0 = false ->
  forallb (fun bg => block_ok bg.1 && gap_ok bg.2) blocks = true ->
  pre ++ SUMMARY_OPEN ++ w ++ summary_body lines ++ SUMMARY_CLOSE ++ post =
    purchase_text g0 blocks ->
  exists r,
    parse_test_output (purchase_text g0 blocks) = Some r /\
    dom (summary r) = list_to_set (l_label <$> lines) /\
    summary r = line_metrics lines /\
    purchases r = block_purchase <$> blocks.*1 /\
    length (purchases r) = length blocks.
Proof.
  intros Hpre Hw Hlines Hclose Hg0 Hblocks Htext.
  exists (Parsed (line_metrics lines) (block_purchase <$> blocks.*1)).
  split; [|repeat split].
  - unfold parse_test_output. rewrite <- Htext at 1.
    rewrite find_summary_section; [|done|done|by apply summary_body_stops|done].
    by rewrite parse_metrics_lines, parse_purchases_text.
  - apply dom_line_metrics.
  - simpl. by rewrite !length_fmap.
Qed.

End Extraction.

Lemma parse_well_formed_output_witness :
  exists r,
    parse_test_output SAMPLE_OUTPUT = Some r /\
    dom (summary r) = list_to_set (l_label <$> SAMPLE_LINES) /\
    summary r = line_metrics SAMPLE_LINES /\
    purchases r = block_purchase <$> SAMPLE_BLOCKS.*1 /\
    length (purchases r) = 2%nat.
Proof.
  apply (parse_well_formed_output SAMPLE_PURCHASES nl (lit " -------" ++ nl) []
           SAMPLE_LINES SAMPLE_BLOCKS); reflexivity.
Defined.

(** ** Matches, read backwards *)

Module InvFacts.
Import ReFacts ScanFacts PatternFacts.

Lemma search_Some_inv re s r :
  search re s = Some r -> exists a b, s = a ++ b /\ match_here re b = Some r.
Proof.
  induction s as [|c s IH]; simpl.
  - destruct (match_here re []) eqn:E; [|done]. intros [= <-]. by exists [], [].
  - destruct (match_here re (c :: s)) eqn:E.
    + intros [= <-]. by exists [], (c :: s).
    + intros (a & b & -> & Hb)%IH. by exists (c :: a), b.
Qed.

Lemma mh_lit_inv l re s r :
  match_here (Lit l :: re) s = Some r ->
  exists s', s = l ++ s' /\ match_here re s' = Some r.
Proof.
  simpl. destruct (strip_prefix l s) as [s'|] eqn:E; [|done].
  apply strip_prefix_Some in E as ->. eauto.
Qed.

Lemma mh_rep_inv g min cls cap re s r :
  match_here (Rep g min cls cap :: re) s = Some r ->
  exists w s' r',
    s = w ++ s' /\ forallb cls w = true /\ (min <= length w)%nat /\
    match_here re s' = Some r'.
Proof.
  simpl. intros (w & s' & r' & -> & Hw & Hmin & Hk & _)%rep_sound. by exists w, s', r'.
Qed.

Lemma is_number_intro (d : str) :
  forallb is_digit d = true -> (1 <= length d)%nat -> is_number d = true.
Proof. destruct d; simpl; [lia|done]. Qed.

(** Whatever the purchase pattern matches begins with a well-formed block. *)
Lemma match_block_inv s r :
  match_here purchase_re s = Some r ->
  exists b rest, block_ok b = true /\ s = render_block b ++ rest.
Proof.
  unfold purchase_re. intros H.
  apply mh_lit_inv in H as (s0 & -> & H).
  apply mh_rep_inv in H as (w1 & s1 & ? & -> & Hw1 & _ & H).
  apply mh_rep_inv in H as (d1 & s2 & ? & -> & Hd1 & Hn1 & H).
  apply mh_rep_inv in H as (w2 & s3 & ? & -> & Hw2 & _ & H).
  apply mh_lit_inv in H as (s4 & -> & H).
  apply mh_rep_inv in H as (w3 & s5 & ? & -> & Hw3 & _ & H).
  apply mh_rep_inv in H as (d2 & s6 & ? & -> & Hd2 & Hn2 & H).
  apply mh_rep_inv in H as (w4 & s7 & ? & -> & Hw4 & _ & H).
  apply mh_lit_inv in H as (s8 & -> & H).
  apply mh_rep_inv in H as (w5 & s9 & ? & -> & Hw5 & _ & H).
  apply mh_rep_inv in H as (d3 & s10 & ? & -> & Hd3 & Hn3 & H).
  apply mh_rep_inv in H as (w6 & s11 & ? & -> & Hw6 & _ & H).
  apply mh_lit_inv in H as (s12 & -> & H).
  apply mh_rep_inv in H as (w7 & s13 & ? & -> & Hw7 & _ & H).
  apply mh_rep_inv in H as (d4 & rest & ? & -> & Hd4 & Hn4 & H).
  exists (Block w1 d1 w2 w3 d2 w4 w5 d3 w6 w7 d4), rest. split.
  - unfold block_ok, is_spaces.
    cbn [b_ws1 b_num b_ws2 b_ws3 b_eth b_ws4 b_ws5 b_tokens b_ws6 b_ws7 b_price].
    rewrite Hw1, Hw2, Hw3, Hw4, Hw5, Hw6, Hw7.
    by rewrite !is_number_intro by done.
  - unfold render_block.
    cbn [b_ws1 b_num b_ws2 b_ws3 b_eth b_ws4 b_ws5 b_tokens b_ws6 b_ws7 b_price].
    by rewrite <- !app_assoc.
Qed.

Lemma no_block_no_purchase output :
  ~ has_purchase_block output -> parse_purchases output = [].
Proof.
  intros Hno. unfold parse_purchases. rewrite findall_none; [done|].
  intros a s ->. destruct (match_here purchase_re s) as [r|] eqn:E; [|done].
  exfalso. apply Hno. apply match_block_inv in E as (b & rest & Hb & ->).
  by exists a, b, rest.
Qed.

(** The summary pattern matches somewhere exactly when a closing marker
    follows an opening marker. *)
Lemma find_summary_None output :
  find_summary output = None <-> ~ has_summary_section output.
Proof.
  unfold find_summary. split.
  - intros Hnone (pre & mid & post & ->).
    destruct (search summary_re _) eqn:E; [done|]. clear Hnone.
    rewrite search_None in E.
    specialize (E pre (SUMMARY_OPEN ++ mid ++ SUMMARY_CLOSE ++ post) eq_refl).
    unfold summary_re in E. rewrite match_here_lit in E.
    assert (is_Some (match_here
      [Rep Greedy 0 is_space false; Rep Lazy 0 any_char true; Lit SUMMARY_CLOSE]
      ([] ++ mid ++ SUMMARY_CLOSE ++ post))) as [r Hr]; [|simpl in *; congruence].
    apply rep_complete; [done|simpl; lia|].
    apply rep_complete; [apply forallb_any_char|simpl; lia|].
    change (is_Some (match_here [Lit SUMMARY_CLOSE] (SUMMARY_CLOSE ++ post))).
    rewrite match_here_lit. by eexists.
  - intros Hno. destruct (search summary_re output) as [r|] eqn:E; [|done].
    exfalso. apply Hno.
    apply search_Some_inv in E as (pre & b & -> & H).
    unfold summary_re in H.
    apply mh_lit_inv in H as (s0 & -> & H).
    apply mh_rep_inv in H as (w & s1 & ? & -> & _ & _ & H).
    apply mh_rep_inv in H as (mid & s2 & ? & -> & _ & _ & H).
    apply mh_lit_inv in H as (post & -> & _).
    exists pre, (w ++ mid), post. by rewrite <- !app_assoc.
Qed.

Lemma occurs_section output :
  has_summary_section output -> occurs SUMMARY_OPEN output = true.
Proof.
  intros (pre & mid & post & ->).
  destruct (occurs SUMMARY_OPEN _) eqn:E; [done|].
  rewrite occurs_false in E.
  specialize (E pre _ eq_refl). by rewrite strip_prefix_app in E.
Qed.

End InvFacts.

Section Degradation.
Import InvFacts.

(** C3.  [parse_test_output] returns [None] exactly when the summary section
    (the opening marker and, after it, the closing marker that ends it)
    cannot be located in the raw text, in particular when the opening marker
    does not occur; a text with a summary section and no purchase block gives
    a result with a summary mapping and an empty purchase list. *)
Theorem parse_none_iff_no_summary (output : str) :
  (parse_test_output output = None <-> ~ has_summary_section output) /\
  (occurs SUMMARY_OPEN output = false -> parse_test_output output = None) /\
  (has_summary_section output -> ~ has_purchase_block output ->
   exists metrics, parse_test_output output = Some (Parsed metrics [])).
Proof.
  assert (parse_test_output output = None <-> ~ has_summary_section output) as Hiff.
  { rewrite <- find_summary_None. unfold parse_test_output.
    destruct (find_summary output); split; done. }
  split; [done|split].
  - intros Hno. apply Hiff. intros H%occurs_section. congruence.
  - intros Hsec Hnob. unfold parse_test_output.
    destruct (find_summary output) as [t|] eqn:E.
    + exists (parse_metrics t). by rewrite no_block_no_purchase.
    + by apply find_summary_None in E.
Qed.

End Degradation.

Lemma occurs_block output : has_purchase_block output -> occurs PURCHASE output = true.
Proof.
  intros (pre & b & post & _ & ->).
  destruct (occurs PURCHASE _) eqn:E; [done|].
  rewrite occurs_false in E. specialize (E pre _ eq_refl).
  unfold render_block in E. by rewrite <- !app_assoc, strip_prefix_app in E.
Qed.

(** An opening marker that no closing marker follows opens no section. *)
Example opening_marker_alone :
  parse_test_output (SUMMARY_OPEN ++ nl ++ lit "Starting price: 100" ++ nl) = None.
Proof. reflexivity. Qed.

Lemma parse_none_iff_no_summary_witness :
  parse_test_output SAMPLE_PURCHASES = None /\
  exists metrics, parse_test_output SAMPLE_SUMMARY = Some (Parsed metrics []).
Proof.
  split.
  - apply (parse_none_iff_no_summary SAMPLE_PURCHASES). reflexivity.
  - apply (parse_none_iff_no_summary SAMPLE_SUMMARY).
    + exists [], SAMPLE_BODY, (lit " -------" ++ nl). reflexivity.
    + intros H%occurs_block. vm_compute in H. discriminate.
Defined.

(** C2.  On the concrete scenario of the specification (six summary lines
    between the markers and the two purchase blocks (1, 1000, 20, 100) and
    (2, 2000, 10, 200), logged before the summary or after it)
    [parse_test_output] yields a summary mapping with exactly the six keys and
    their values, and exactly the two purchase records; in the purchase table
    built from them, the column [tokens_per_eth] that [plot_tokens_per_eth]
    derives holds 0.02 and 0.005. *)
Theorem concrete_scenario (name : str) (output : str) :
  output = SAMPLE_OUTPUT \/ output = SAMPLE_OUTPUT' ->
  exists r df,
    parse_test_output output = Some r /\
    summary r = SAMPLE_METRICS /\
    size (summary r) = 6%nat /\
    purchases r = SAMPLE_RECORDS /\
    (create_purchase_dataframe [ScenarioResult r name output] ≫= tokens_per_eth) = Ok df /\
    getitem df (lit "tokens_per_eth") = Ok [CFloat 0.02; CFloat 0.005].
Proof.
  intros [-> | ->].
  - exists (Parsed SAMPLE_METRICS SAMPLE_RECORDS). eexists.
    split; [by vm_compute|]. split; [done|]. split; [by vm_compute|].
    split; [done|]. split; [by vm_compute|]. by vm_compute.
  - exists (Parsed SAMPLE_METRICS SAMPLE_RECORDS). eexists.
    split; [by vm_compute|]. split; [done|]. split; [by vm_compute|].
    split; [done|]. split; [by vm_compute|]. by vm_compute.
Qed.

Lemma concrete_scenario_witness :
  exists r df,
    parse_test_output SAMPLE_OUTPUT = Some r /\
    summary r = SAMPLE_METRICS /\
    size (summary r) = 6%nat /\
    purchases r = SAMPLE_RECORDS /\
    (create_purchase_dataframe [ScenarioResult r (lit "Standard Sale") SAMPLE_OUTPUT]
       ≫= tokens_per_eth) = Ok df /\
    getitem df (lit "tokens_per_eth") = Ok [CFloat 0.02; CFloat 0.005].
Proof.
  apply (concrete_scenario (lit "Standard Sale") SAMPLE_OUTPUT). left. reflexivity.
Defined.

(** C9, as stated, fails: the parser copies the number written in each block
    and checks nothing about it.  Two blocks numbered 7 give two records
    numbered 7. *)
Lemma purchase_num_not_checked :
  ~ (forall output r,
       parse_test_output output = Some r -> numbered_from_one (purchases r)).
Proof.
  intros H.
  specialize (H REPEATED_NUMBER_OUTPUT
                (Parsed SAMPLE_METRICS [Purchase 7 1000 20 100; Purchase 7 2000 10 200])).
  assert (parse_test_output REPEATED_NUMBER_OUTPUT =
            Some (Parsed SAMPLE_METRICS [Purchase 7 1000 20 100; Purchase 7 2000 10 200]))
    as E by (by vm_compute).
  apply H in E. vm_compute in E. discriminate.
Qed.

(** C9, amended.  For a text of well-formed purchase blocks, the records are
    those of the blocks in the order of the text, and the [purchase_num] of a
    record is the integer written after [Purchase #:] in its block; so the
    records count from 1 (and their numbers are unique) exactly when the
    blocks of the text are numbered that way. *)
Theorem purchase_records_follow_text (g0 : str) (blocks : list (block * str)) (r : parsed) :
  begins_in PURCHASE g0 = false ->
  forallb (fun bg => block_ok bg.1 && gap_ok bg.2) blocks = true ->
  parse_test_output (purchase_text g0 blocks) = Some r ->
  purchases r = block_purchase <$> blocks.*1 /\
  purchase_num <$> purchases r = (fun b => int_of_digits (b_num b)) <$> blocks.*1 /\
  (numbered_from_one (purchases r) <->
   (fun b => int_of_digits (b_num b)) <$> blocks.*1 = Z.of_nat <$> seq 1 (length blocks)).
Proof.
  intros Hg0 Hblocks Hparse.
  assert (purchases r = block_purchase <$> blocks.*1) as Hp.
  { unfold parse_test_output in Hparse.
    destruct (find_summary _); [|done]. injection Hparse as <-.
    by apply parse_purchases_text. }
  assert (purchase_num <$> purchases r =
            (fun b => int_of_digits (b_num b)) <$> blocks.*1) as Hn.
  { rewrite Hp, <- list_fmap_compose. done. }
  repeat split; try done.
  - unfold numbered_from_one. rewrite Hn, Hp, !length_fmap. done.
  - unfold numbered_from_one. rewrite Hn, Hp, !length_fmap. done.
Qed.

Lemma purchase_records_follow_text_witness :
  purchases (Parsed SAMPLE_METRICS SAMPLE_RECORDS) = block_purchase <$> SAMPLE_BLOCKS.*1 /\
  purchase_num <$> purchases (Parsed SAMPLE_METRICS SAMPLE_RECORDS) =
    (fun b => int_of_digits (b_num b)) <$> SAMPLE_BLOCKS.*1 /\
  (numbered_from_one (purchases (Parsed SAMPLE_METRICS SAMPLE_RECORDS)) <->
   (fun b => int_of_digits (b_num b)) <$> SAMPLE_BLOCKS.*1 = Z.of_nat <$> seq 1 2).
Proof.
  apply (purchase_records_follow_text [] SAMPLE_BLOCKS (Parsed SAMPLE_METRICS SAMPLE_RECORDS)).
  - reflexivity.
  - reflexivity.
  - vm_compute. reflexivity.
Defined.

(** * The aggregation claims *)

Module FrameFacts.

Lemma lookup_replace_key {A} (k k' : str) (v : A) d :
  lookup_key k' (replace_key k v d) =
    if bool_decide (k = k') then Some v else lookup_key k' d.
Proof.
  induction d as [|[k0 v0] d IH]; simpl.
  - by repeat case_bool_decide.
  - repeat (case_bool_decide; simpl); congruence.
Qed.

Lemma getitem_setitem df k k' col :
  getitem (setitem df k col) k' = if bool_decide (k = k') then Ok col else getitem df k'.
Proof.
  unfold getitem, setitem. simpl. rewrite lookup_replace_key. by case_bool_decide.
Qed.

Lemma res_map_Forall2 {A B} (f : A -> res B) l ys :
  res_map f l = Ok ys <-> Forall2 (fun x y => f x = Ok y) l ys.
Proof.
  revert ys. induction l as [|x l IH]; intros ys; simpl.
  - split; [intros [= <-]; constructor|by inversion 1].
  - destruct (f x) as [y|e] eqn:Ex; simpl.
    + destruct (res_map f l) as [ys'|e] eqn:El; simpl.
      * split.
        -- intros [= <-]. constructor; [done|]. by apply IH.
        -- inversion 1 as [|? y' ? ys'' Hy Hys]; subst.
           apply IH in Hys. congruence.
      * split; [done|]. inversion 1 as [|? y' ? ys'' Hy Hys]; subst.
        apply IH in Hys. congruence.
    + split; [done|]. inversion 1; congruence.
Qed.

Lemma res_map_total {A B} (f : A -> res B) l :
  Forall (fun x => exists y, f x = Ok y) l -> exists ys, res_map f l = Ok ys.
Proof.
  induction 1 as [|x l [y Hy] _ [ys IH]]; simpl; [by eexists|].
  rewrite Hy, IH. simpl. by eexists.
Qed.

(** Storing a column keeps each value or turns it into the float next to
    it. *)
Lemma convert_objects_Forall2 col :
  Forall2 (fun c c' => c' = c \/ c' = CFloat (as_float64 c)) col (convert_objects col).
Proof.
  unfold convert_objects. destruct (infer_dtype col).
  1,2,4: apply Forall2_same_length_lookup_2; [done|]; intros; left; congruence.
  apply Forall2_fmap_r, Forall_Forall2_diag, Forall_forall. by right.
Qed.

Lemma length_convert_objects col : length (convert_objects col) = length col.
Proof. symmetry. eapply Forall2_length, convert_objects_Forall2. Qed.

Lemma convert_objects_no_float col :
  existsb is_float col = false -> convert_objects col = col.
Proof.
  intros H. unfold convert_objects. destruct (infer_dtype col) eqn:E; try done.
  exfalso. unfold infer_dtype in E. rewrite H in E. destruct col; [done|].
  repeat match type of E with context [if ?b then _ else _] => destruct b end; done.
Qed.

Lemma length_apply f col new : apply f col = Ok new -> length new = length col.
Proof.
  unfold apply. destruct (res_map f col) as [ys|] eqn:E; [|done].
  intros [= <-]. rewrite length_convert_objects.
  apply res_map_Forall2 in E. symmetry. by eapply Forall2_length.
Qed.

Lemma derive_eq f src dst df col :
  lookup_key (lit src) (df_cols df) = Some col ->
  derive f src dst df = new ← apply f col; Ok (setitem df (lit dst) new).
Proof. intros H. unfold derive, getitem. by rewrite H. Qed.

Lemma derive_KeyError f src dst df :
  lookup_key (lit src) (df_cols df) = None ->
  derive f src dst df = Raise (KeyError (lit src)).
Proof. intros H. unfold derive, getitem. by rewrite H. Qed.

End FrameFacts.

Module SummaryFacts.
Import FrameFacts.

Lemma record_keys_summary r rs :
  record_keys (map summary_record (r :: rs)) = RAW_COLUMNS.
Proof.
  unfold record_keys. cbn [map fold_left].
  change (fold_left add_key (map fst (summary_record r)) []) with RAW_COLUMNS.
  induction rs as [|r' rs IH]; [done|]. cbn [map fold_left].
  by change (fold_left add_key (map fst (summary_record r')) RAW_COLUMNS) with RAW_COLUMNS.
Qed.

Lemma raw_column (k : str) (f : scenario_result -> cell) results :
  (forall r, default (CFloat nan) (lookup_key k (summary_record r)) = f r) ->
  (forall r, is_float (f r) = false) ->
  convert_objects
    (map (fun rec => default (CFloat nan) (lookup_key k rec)) (map summary_record results)) =
  map f results.
Proof.
  intros Hf Hnf. rewrite map_map, (map_ext _ f) by done.
  apply convert_objects_no_float. induction results as [|r rs IH]; [done|].
  simpl. by rewrite Hnf.
Qed.

(** The raw table of a batch that is not empty. *)
Lemma raw_summary_table_eq r rs :
  raw_summary_table (r :: rs) =
    {| df_rows := length (r :: rs);
       df_cols :=
         [ (lit "Scenario", map (fun r => CStr (scenario_name r)) (r :: rs));
           (lit "Initial Price (wei)", metric_column "Starting price" (r :: rs));
           (lit "Final Price (wei)", metric_column "Final price" (r :: rs));
           (lit "Price Increase (%)", metric_column "Price increase (%)" (r :: rs));
           (lit "Tokens Sold", metric_column "Tokens sold in sale" (r :: rs));
           (lit "ETH Raised", metric_column "Total ETH raised" (r :: rs));
           (lit "Avg Price Per Token (wei)",
            metric_column "Effective avg price per token" (r :: rs)) ] |}.
Proof.
  unfold raw_summary_table, DataFrame_of_records.
  rewrite record_keys_summary, length_map. f_equal.
  generalize (r :: rs) as results. intros results.
  unfold RAW_COLUMNS, metric_column. cbn [map].
  repeat (f_equal; [f_equal; apply raw_column; intros; reflexivity|]).
  do 2 f_equal. apply raw_column; intros; reflexivity.
Qed.

(** [create_summary_table] on a batch that is not empty: four conversions,
    then the table. *)
Lemma create_summary_table_eq r rs :
  create_summary_table (r :: rs) =
    a ← apply (scale_or_zero 1e18) (metric_column "Starting price" (r :: rs));
    b ← apply (scale_or_zero 1e18) (metric_column "Final price" (r :: rs));
    c ← apply (scale_or_zero 1e18) (metric_column "Total ETH raised" (r :: rs));
    d ← apply (scale_or_zero 1e6) (metric_column "Tokens sold in sale" (r :: rs));
    Ok (summary_table_of (r :: rs) a b c d).
Proof.
  unfold create_summary_table. fold (raw_summary_table (r :: rs)).
  rewrite raw_summary_table_eq.
  erewrite derive_eq by reflexivity.
  destruct (apply _ (metric_column "Starting price" _)) as [a|e]; [|done].
  cbn [mbind res_mbind res_bind].
  erewrite derive_eq by reflexivity.
  destruct (apply _ (metric_column "Final price" _)) as [b|e]; [|done].
  cbn [mbind res_mbind res_bind].
  erewrite derive_eq by reflexivity.
  destruct (apply _ (metric_column "Total ETH raised" _)) as [c|e]; [|done].
  cbn [mbind res_mbind res_bind].
  erewrite derive_eq by reflexivity.
  destruct (apply _ (metric_column "Tokens sold in sale" _)) as [d|e]; [|done].
  reflexivity.
Qed.

Lemma create_summary_table_nil :
  create_summary_table [] = Raise (KeyError (lit "Initial Price (wei)")).
Proof. reflexivity. Qed.

End SummaryFacts.

Section UnitConversion.
Import FrameFacts SummaryFacts.

(** C5, as stated, fails: the raw column [ETH Raised] is not kept.  In the
    concrete scenario it holds 50000000000000000000 in the raw table and 50.0
    in the summary table. *)
Lemma eth_raised_overwritten :
  ~ (forall results df c col,
       create_summary_table results = Ok df ->
       getitem (raw_summary_table results) c = Ok col ->
       getitem df c = Ok col).
Proof.
  intros H.
  assert (exists df, create_summary_table [SAMPLE_RESULT] = Ok df /\
                     getitem df (lit "ETH Raised") = Ok [CFloat 50]) as (df & E1 & E2).
  { eexists. split; vm_compute; reflexivity. }
  assert (getitem (raw_summary_table [SAMPLE_RESULT]) (lit "ETH Raised") =
            Ok [CInt 50000000000000000000]) as E3 by (vm_compute; reflexivity).
  specialize (H _ _ _ _ E1 E3). rewrite E2 in H. discriminate.
Qed.

(** C5, amended.  [create_summary_table] adds the columns
    [Initial Price (ETH)], [Final Price (ETH)] (wei divided by 10^18) and
    [Tokens Sold (millions)] (the count divided by 10^6) as new columns, and
    keeps [Scenario], [Initial Price (wei)], [Final Price (wei)],
    [Price Increase (%)], [Tokens Sold] and [Avg Price Per Token (wei)] as they
    are in the raw table; the column [ETH Raised] is replaced where it stands
    by its values divided by 10^18. *)
Theorem unit_conversion_columns (results : list scenario_result) (df : DataFrame) :
  create_summary_table results = Ok df ->
  Forall (fun c => getitem df (lit c) = getitem (raw_summary_table results) (lit c))
    KEPT_COLUMNS /\
  Forall (fun '(dst, src, d) =>
            getitem (raw_summary_table results) (lit dst) = Raise (KeyError (lit dst)) /\
            getitem df (lit dst) =
              getitem (raw_summary_table results) (lit src) ≫= apply (scale_or_zero d))
    ADDED_COLUMNS /\
  getitem df (lit "ETH Raised") =
    getitem (raw_summary_table results) (lit "ETH Raised") ≫= apply (scale_or_zero 1e18).
Proof.
  destruct results as [|r rs]; [by rewrite create_summary_table_nil|].
  rewrite create_summary_table_eq, raw_summary_table_eq.
  destruct (apply _ (metric_column "Starting price" _)) as [a|] eqn:Ea; [|done].
  cbn [mbind res_mbind res_bind].
  destruct (apply _ (metric_column "Final price" _)) as [b|] eqn:Eb; [|done].
  cbn [mbind res_mbind res_bind].
  destruct (apply _ (metric_column "Total ETH raised" _)) as [c|] eqn:Ec; [|done].
  cbn [mbind res_mbind res_bind].
  destruct (apply _ (metric_column "Tokens sold in sale" _)) as [d|] eqn:Ed; [|done].
  intros [= <-]. split; [|split].
  - repeat constructor.
  - repeat constructor.
    + change (Ok a = apply (scale_or_zero 1e18) (metric_column "Starting price" (r :: rs))).
      by rewrite Ea.
    + change (Ok b = apply (scale_or_zero 1e18) (metric_column "Final price" (r :: rs))).
      by rewrite Eb.
    + change (Ok d = apply (scale_or_zero 1e6) (metric_column "Tokens sold in sale" (r :: rs))).
      by rewrite Ed.
  - change (Ok c = apply (scale_or_zero 1e18) (metric_column "Total ETH raised" (r :: rs))).
    by rewrite Ec.
Qed.

Lemma unit_conversion_columns_witness :
  exists df,
    create_summary_table [SAMPLE_RESULT] = Ok df /\
    Forall (fun c => getitem df (lit c) = getitem (raw_summary_table [SAMPLE_RESULT]) (lit c))
      KEPT_COLUMNS /\
    getitem df (lit "ETH Raised") = Ok [CFloat 50].
Proof.
  eexists. split; [vm_compute; reflexivity|].
  split.
  - eapply (unit_conversion_columns [SAMPLE_RESULT]). vm_compute. reflexivity.
  - vm_compute. reflexivity.
Defined.

End UnitConversion.

Section Rectangular.
Import FrameFacts SummaryFacts.

Lemma scale_or_zero_zero d : scale_or_zero d (CInt 0) = Ok (CInt 0).
Proof. reflexivity. Qed.

(** A conversion leaves a zero where the raw column has one. *)
Lemma apply_scale_zero d col new i :
  apply (scale_or_zero d) col = Ok new -> col !! i = Some (CInt 0) ->
  exists c, new !! i = Some c /\ is_zero_cell c = true.
Proof.
  unfold apply. destruct (res_map _ col) as [ys|] eqn:E; [|done].
  intros [= <-] Hi. apply res_map_Forall2 in E.
  destruct (Forall2_lookup_l _ _ _ _ _ E Hi) as (y & Hy & Hs).
  rewrite scale_or_zero_zero in Hs. injection Hs as <-.
  destruct (Forall2_lookup_l _ _ _ _ _ (convert_objects_Forall2 ys) Hy) as (c & Hc & [->| ->]).
  - by exists (CInt 0).
  - by exists (CFloat (as_float64 (CInt 0))).
Qed.

Lemma apply_scale_total d key results :
  PrimFloat.is_zero d = false ->
  Forall (fun r => Z.abs (default 0 (summary (data r) !! lit key)) < FLOAT_OVERFLOW) results ->
  exists new, apply (scale_or_zero d) (metric_column key results) = Ok new.
Proof.
  intros Hd Hfit. unfold apply.
  destruct (res_map_total (scale_or_zero d) (metric_column key results)) as [ys ->];
    [|by eexists].
  unfold metric_column. apply Forall_map. eapply Forall_impl; [exact Hfit|].
  intros r Hr. unfold get_metric, scale_or_zero. simpl.
  destruct (negb _); [|by eexists].
  unfold py_float_of_int. apply Z.leb_gt in Hr. rewrite Hr. simpl.
  unfold py_float_truediv. rewrite Hd. by eexists.
Qed.

Lemma metric_column_lookup key results i r :
  results !! i = Some r -> metric_column key results !! i = Some (get_metric r key).
Proof.
  revert i. induction results as [|r' rs IH]; intros [|i]; simpl; try done.
  - by intros [= ->].
  - apply IH.
Qed.

Lemma fits_float_spec r :
  fits_float r = true ->
  Z.abs (default 0 (summary (data r) !! lit "Starting price")) < FLOAT_OVERFLOW /\
  Z.abs (default 0 (summary (data r) !! lit "Final price")) < FLOAT_OVERFLOW /\
  Z.abs (default 0 (summary (data r) !! lit "Total ETH raised")) < FLOAT_OVERFLOW /\
  Z.abs (default 0 (summary (data r) !! lit "Tokens sold in sale")) < FLOAT_OVERFLOW.
Proof.
  unfold fits_float. cbn [forallb]. rewrite !andb_true_iff, !Z.ltb_lt. tauto.
Qed.

(** The keys of the metrics read from a text are labels matched in it. *)
Lemma dom_fold_metrics (l : list (list str)) (m : gmap str Z) key :
  key ∈ dom (fold_left add_metric l m) ->
  key ∈ dom m \/ exists groups, groups ∈ l /\ key = strip (group 0 groups).
Proof.
  revert m. induction l as [|g l IH]; intros m; simpl; [by left|].
  intros [H|(groups & Hin & ->)]%IH.
  - unfold add_metric in H. rewrite dom_insert in H.
    apply elem_of_union in H as [->%elem_of_singleton|H]; [|by left].
    right. exists g. split; [left|done].
  - right. exists groups. split; [by right|done].
Qed.

(** C6.  Whatever labels the summary mappings of a batch hold, the Summary
    Table [create_summary_table] returns has the ten columns
    [SUMMARY_COLUMNS], each with one cell per scenario; a raw metric column
    holds the metric of each scenario or 0 when the scenario lacks it, and
    every cell of a metric column, raw or converted, is zero for a scenario
    that lacks the metric.  The table is returned for every batch that is not
    empty and whose converted metrics are in the range of a float.  The zero
    comes from this stage: a key of the mapping [parse_test_output] returns
    is always a label matched in the summary text. *)
Theorem summary_table_rectangular (results : list scenario_result) :
  (forall df,
     create_summary_table results = Ok df ->
     (df_cols df).*1 = SUMMARY_COLUMNS /\
     Forall (fun kc => length kc.2 = length results) (df_cols df) /\
     Forall (fun '(col, key) => getitem df (lit col) = Ok (metric_column key results))
       RAW_METRIC_COLUMNS /\
     Forall (fun '(col, key) =>
               forall i r, results !! i = Some r -> summary (data r) !! lit key = None ->
               exists cells c,
                 getitem df (lit col) = Ok cells /\ cells !! i = Some c /\
                 is_zero_cell c = true)
       METRIC_COLUMNS) /\
  (results <> [] -> forallb fits_float results = true ->
   exists df, create_summary_table results = Ok df) /\
  (forall output r key,
     parse_test_output output = Some r -> key ∈ dom (summary r) ->
     exists summary_text groups,
       find_summary output = Some summary_text /\
       groups ∈ findall pair_re summary_text /\ key = strip (group 0 groups)).
Proof.
  split; [|split].
  - intros df. destruct results as [|r rs]; [by rewrite create_summary_table_nil|].
    rewrite create_summary_table_eq.
    destruct (apply _ (metric_column "Starting price" _)) as [a|] eqn:Ea; [|done].
    cbn [mbind res_mbind res_bind].
    destruct (apply _ (metric_column "Final price" _)) as [b|] eqn:Eb; [|done].
    cbn [mbind res_mbind res_bind].
    destruct (apply _ (metric_column "Total ETH raised" _)) as [c|] eqn:Ec; [|done].
    cbn [mbind res_mbind res_bind].
    destruct (apply _ (metric_column "Tokens sold in sale" _)) as [d|] eqn:Ed; [|done].
    intros [= <-].
    pose proof (length_apply _ _ _ Ea) as La. pose proof (length_apply _ _ _ Eb) as Lb.
    pose proof (length_apply _ _ _ Ec) as Lc. pose proof (length_apply _ _ _ Ed) as Ld.
    unfold metric_column in La, Lb, Lc, Ld. rewrite length_map in La, Lb, Lc, Ld.
    split; [done|]. split; [|split].
    + unfold summary_table_of, metric_column. cbn [df_cols].
      repeat constructor; cbn [snd]; by rewrite ?length_map.
    + repeat constructor.
    + assert (forall key i r0, (r :: rs) !! i = Some r0 ->
                summary (data r0) !! lit key = None ->
                metric_column key (r :: rs) !! i = Some (CInt 0)) as Hraw.
      { intros key i r0 Hi Hnone. rewrite (metric_column_lookup _ _ _ _ Hi).
        unfold get_metric. by rewrite Hnone. }
      repeat constructor; intros i r0 Hi Hnone.
      1-4,6: eexists _, (CInt 0); split; [reflexivity|]; split; [by eapply Hraw|done].
      * destruct (apply_scale_zero _ _ _ i Ec (Hraw _ _ _ Hi Hnone)) as (x & ? & ?).
        by exists c, x.
      * destruct (apply_scale_zero _ _ _ i Ea (Hraw _ _ _ Hi Hnone)) as (x & ? & ?).
        by exists a, x.
      * destruct (apply_scale_zero _ _ _ i Eb (Hraw _ _ _ Hi Hnone)) as (x & ? & ?).
        by exists b, x.
      * destruct (apply_scale_zero _ _ _ i Ed (Hraw _ _ _ Hi Hnone)) as (x & ? & ?).
        by exists d, x.
  - intros Hne Hfit. destruct results as [|r rs]; [done|].
    rewrite create_summary_table_eq.
    assert (Forall (fun r => fits_float r = true) (r :: rs)) as Hall.
    { apply Forall_forall. intros x Hx. rewrite forallb_forall in Hfit.
      apply Hfit. by apply list_elem_of_In. }
    destruct (apply_scale_total 1e18 "Starting price" (r :: rs)) as [a ->]; [done| |].
    { eapply Forall_impl; [exact Hall|]. by intros x (? & ? & ? & ?)%fits_float_spec. }
    destruct (apply_scale_total 1e18 "Final price" (r :: rs)) as [b ->]; [done| |].
    { eapply Forall_impl; [exact Hall|]. by intros x (? & ? & ? & ?)%fits_float_spec. }
    destruct (apply_scale_total 1e18 "Total ETH raised" (r :: rs)) as [c ->]; [done| |].
    { eapply Forall_impl; [exact Hall|]. by intros x (? & ? & ? & ?)%fits_float_spec. }
    destruct (apply_scale_total 1e6 "Tokens sold in sale" (r :: rs)) as [d ->]; [done| |].
    { eapply Forall_impl; [exact Hall|]. by intros x (? & ? & ? & ?)%fits_float_spec. }
    by eexists.
  - intros output r key. unfold parse_test_output.
    destruct (find_summary output) as [t|]; [|done]. intros [= <-]. simpl.
    unfold parse_metrics. intros [H|(groups & Hin & ->)]%dom_fold_metrics.
    + by rewrite dom_empty in H.
    + by exists t, groups.
Qed.

Lemma summary_table_rectangular_witness :
  (exists df, create_summary_table [SAMPLE_RESULT; EMPTY_RESULT] = Ok df) /\
  exists summary_text groups,
    find_summary SAMPLE_OUTPUT = Some summary_text /\
    groups ∈ findall pair_re summary_text /\
    lit "Final price" = strip (group 0 groups).
Proof.
  split.
  - apply (summary_table_rectangular [SAMPLE_RESULT; EMPTY_RESULT]).
    + discriminate.
    + vm_compute. reflexivity.
  - destruct (summary_table_rectangular []) as (_ & _ & H).
    apply (H SAMPLE_OUTPUT (Parsed SAMPLE_METRICS SAMPLE_RECORDS)).
    + vm_compute. reflexivity.
    + apply elem_of_dom. exists 400. vm_compute. reflexivity.
Defined.

End Rectangular.

(** * The runner claims *)

Section Runner.

Context {World : Type}.
Context (subprocess_run : list str -> list (str * str) -> World -> CompletedProcess * World).
Context (json_dumps : list (str * Z) -> str).

Local Abbreviation forge := (run_forge_test subprocess_run json_dumps).
Local Abbreviation loop := (run_scenarios subprocess_run json_dumps).
Local Abbreviation batch := (run_scenario_tests subprocess_run json_dumps).
Local Abbreviation runs := (harness_runs subprocess_run json_dumps).

Lemma events_print text (st : state World) : events (print text st) = events st ++ [Print text].
Proof. done. Qed.

Lemma world_print text (st : state World) : world (print text st) = world st.
Proof. done. Qed.

Lemma fold_print (texts : list str) (st : state World) :
  world (fold_left (fun st text => print text st) texts st) = world st /\
  events (fold_left (fun st text => print text st) texts st) = events st ++ (Print <$> texts).
Proof.
  revert st. induction texts as [|t texts IH]; intros st; simpl.
  - by rewrite app_nil_r.
  - destruct (IH (print t st)) as [-> ->]. by rewrite events_print, <- app_assoc.
Qed.

(** What [run_forge_test] does with the answer of the harness. *)
Lemma run_forge_test_spec test_name params (st : state World) :
  let '(p, w) := subprocess_run (forge_cmd test_name) (forge_env json_dumps params) (world st) in
  exists printed,
    forge test_name params st =
      (stdout p, {| world := w; events := events st ++ printed |}) /\
    Forall (fun e => is_print e = true) printed /\
    Print (lit "Exit code: " ++ str_of_Z (returncode p)) ∈ printed.
Proof.
  unfold run_forge_test, forge_cmd, forge_env. simpl.
  destruct (subprocess_run _ _ (world st)) as [p w].
  destruct (returncode p =? 0); eexists; (split; [unfold print, emit; simpl;
    rewrite <- ?app_assoc; reflexivity|]); split;
    repeat constructor; set_solver.
Qed.

Lemma run_scenarios_spec scenarios acc (st : state World) :
  exists st' printed,
    loop scenarios acc st =
      (acc ++ omap (uncurry result_of) (zip scenarios (runs scenarios (world st))), st') /\
    events st' = events st ++ printed /\
    Forall (fun e => is_print e = true) printed /\
    (forall i sc p,
       scenarios !! i = Some sc -> runs scenarios (world st) !! i = Some p ->
       parse_test_output (stdout p) = None ->
       Print (lit "Failed to parse output for scenario: " ++ name_of sc) ∈ printed).
Proof.
  revert acc st. induction scenarios as [|sc scenarios IH]; intros acc st.
  - exists st, []. simpl. rewrite !app_nil_r. repeat split; [constructor|]. by intros [].
  - cbn [run_scenarios harness_runs].
    pose proof (run_forge_test_spec (test_name_of sc) (params_of sc)
                  (print (lit "Running scenario: " ++ name_of sc) st)) as Hrun.
    rewrite world_print in Hrun.
    fold (name_of sc) (test_name_of sc) (params_of sc).
    destruct (subprocess_run _ _ (world st)) as [p w].
    destruct Hrun as (printed1 & -> & Hp1 & _).
    set (st2 := fold_left _ (parse_test_output_prints (stdout p)) _).
    destruct (fold_print (parse_test_output_prints (stdout p))
                {| world := w;
                   events := events (print (lit "Running scenario: " ++ name_of sc) st) ++ printed1 |})
      as [Hw2 He2].
    fold st2 in Hw2, He2. cbn [world events] in Hw2, He2. rewrite events_print in He2.
    cbn [zip zip_with omap list_omap uncurry]. unfold result_of at 1.
    destruct (parse_test_output (stdout p)) as [d|] eqn:Hparse; cbn [fmap option_fmap option_map].
    + destruct (IH (acc ++ [ScenarioResult d (name_of sc) (stdout p)]) st2)
        as (st' & printed & -> & He & Hall & Hfail).
      rewrite Hw2. eexists st', _. split; [by rewrite <- app_assoc|].
      split; [rewrite He, He2, <- !app_assoc; reflexivity|]. split.
      * repeat (apply Forall_app; split); try done.
        -- by repeat constructor.
        -- apply Forall_fmap, Forall_forall. done.
      * intros [|i] sc' p' Hsc Hp' Hnone; simpl in Hsc, Hp'.
        -- injection Hsc as <-. injection Hp' as <-. congruence.
        -- rewrite !elem_of_app. do 3 right. rewrite Hw2 in Hfail. by eapply Hfail.
    + destruct (IH acc (print (lit "Failed to parse output for scenario: " ++ name_of sc) st2))
        as (st' & printed & -> & He & Hall & Hfail).
      rewrite world_print, Hw2 in *. eexists st', _. split; [done|].
      split; [rewrite He, events_print, He2, <- !app_assoc; reflexivity|]. split.
      * repeat (apply Forall_app; split); try done.
        -- by repeat constructor.
        -- apply Forall_fmap, Forall_forall. done.
        -- by repeat constructor.
      * intros [|i] sc' p' Hsc Hp' Hnone; simpl in Hsc, Hp'.
        -- injection Hsc as <-. rewrite !elem_of_app. do 3 right. left. by left.
        -- rewrite !elem_of_app. do 4 right. by eapply Hfail.
Qed.

(** C7.  [run_scenario_tests] runs the harness once per scenario in the
    order of the list and returns, in that order, the results of the
    scenarios whose output parses: a scenario whose output does not parse is
    skipped with a printed notice, every other scenario has its result in the
    returned list, and the rows of the Summary Table made from that list are
    these scenarios in that order. *)
Theorem scenario_isolation (scenarios : list scenario) (st : state World) :
  exists st' printed,
    batch scenarios st =
      (omap (uncurry result_of) (zip scenarios (runs scenarios (world st))), st') /\
    events st' = events st ++ printed /\
    (forall i sc p,
       scenarios !! i = Some sc -> runs scenarios (world st) !! i = Some p ->
       match parse_test_output (stdout p) with
       | Some d => ScenarioResult d (name_of sc) (stdout p) ∈ (batch scenarios st).1
       | None => Print (lit "Failed to parse output for scenario: " ++ name_of sc) ∈ printed
       end) /\
    (forall df,
       create_summary_table (batch scenarios st).1 = Ok df ->
       getitem df (lit "Scenario") =
         Ok ((fun r => CStr (scenario_name r)) <$> (batch scenarios st).1)).
Proof.
  unfold run_scenario_tests.
  destruct (run_scenarios_spec scenarios [] st) as (st' & printed & E & He & _ & Hfail).
  exists st', printed. rewrite E. cbn [app fst]. repeat split; try done.
  - intros i sc p Hsc Hp.
    destruct (parse_test_output (stdout p)) as [d|] eqn:Hparse; [|by eapply Hfail].
    apply list_elem_of_omap. exists (sc, p). split.
    + apply (list_elem_of_lookup_2 _ i). by apply lookup_zip_Some.
    + simpl. unfold result_of. by rewrite Hparse.
  - intros df. generalize (omap (uncurry result_of) (zip scenarios (runs scenarios (world st)))).
    intros [|r rs]; [by rewrite SummaryFacts.create_summary_table_nil|].
    rewrite SummaryFacts.create_summary_table_eq.
    destruct (apply _ (metric_column "Starting price" _)); [|done].
    cbn [mbind res_mbind res_bind].
    destruct (apply _ (metric_column "Final price" _)); [|done].
    cbn [mbind res_mbind res_bind].
    destruct (apply _ (metric_column "Total ETH raised" _)); [|done].
    cbn [mbind res_mbind res_bind].
    destruct (apply _ (metric_column "Tokens sold in sale" _)); [|done].
    cbn [mbind res_mbind res_bind]. intros [= <-].
    reflexivity.
Qed.

(** C8, amended.  Whatever the exit status of the harness, [run_forge_test]
    returns (it raises nothing) and what it returns is the captured standard
    output, unchanged; the exit status is not part of what it returns: it is
    printed, followed by the captured standard error when it is not zero. *)
Theorem run_forge_test_returns_stdout (test_name : str) (params : list (str * Z))
    (st : state World) :
  let '(p, w) := subprocess_run (forge_cmd test_name) (forge_env json_dumps params) (world st) in
  forge test_name params st =
    (stdout p,
     {| world := w;
        events :=
          events st ++
          [ Print (lit "Running command with FOUNDRY_PROFILE=lifecycle: " ++
                   join (lit " ") (forge_cmd test_name));
            Print (lit "Exit code: " ++ str_of_Z (returncode p)) ] ++
          if returncode p =? 0 then [] else [Print (lit "Error output: " ++ stderr p)] |}).
Proof.
  unfold run_forge_test, forge_cmd, forge_env, print, emit. cbn [world events].
  destruct (subprocess_run _ _ (world st)) as [p w].
  destruct (returncode p =? 0); cbn [world events]; f_equal; f_equal.
  - by rewrite <- app_assoc, app_nil_r.
  - by rewrite <- !app_assoc.
Qed.

End Runner.

(** C8, as stated, fails: the exit status cannot be read from what
    [run_forge_test] returns.  A run that exits with 0 and a run that exits
    with 1 on the same output return the same value. *)
Lemma exit_code_not_returned :
  ~ (exists exit_code : str -> Z,
       forall p : CompletedProcess,
         exit_code (run_forge_test replay no_json (lit "test_Scenario_EndToEndTokenSale") []
                      {| world := p; events := [] |}).1 = returncode p).
Proof.
  intros [exit_code H].
  pose proof (H PASSED) as H0.
  pose proof (H FAILED) as H1.
  change (exit_code SAMPLE_OUTPUT = 0) in H0.
  change (exit_code SAMPLE_OUTPUT = 1) in H1.
  congruence.
Qed.

(** * The purchase table claims *)

Section PurchaseTable.
Import FrameFacts.

Lemma all_purchases_nil results :
  Forall (fun r => purchases (data r) = []) results -> all_purchases results = [].
Proof.
  unfold all_purchases. induction 1 as [|r rs Hr _ IH]; [done|].
  simpl. by rewrite Hr, IH.
Qed.

(** C10.  When every scenario of a batch has an empty purchase list,
    [create_purchase_dataframe] raises: the table built from no record has no
    column, and reading its column [eth_spent] is a [KeyError].  [main]
    (which is [analyze] on its own scenarios) never gets there: once the
    summary table is built it finds no purchase data, prints a notice and
    returns, having written no chart and no report (all it did since it
    started the runs was print). *)
Theorem empty_purchases_raise {World : Type}
    (subprocess_run : list str -> list (str * str) -> World -> CompletedProcess * World)
    (json_dumps : list (str * Z) -> str) (results : list scenario_result) :
  results <> [] ->
  Forall (fun r => purchases (data r) = []) results ->
  create_purchase_dataframe results = Raise (KeyError (lit "eth_spent")) /\
  forall scenarios (st st' : state World) summary_df,
    run_scenario_tests subprocess_run json_dumps scenarios st = (results, st') ->
    create_summary_table results = Ok summary_df ->
    exists printed,
      analyze subprocess_run json_dumps scenarios st =
        (Ok NoPurchaseData, {| world := world st'; events := events st ++ printed |}) /\
      Forall (fun e => is_print e = true) printed.
Proof.
  intros Hne Hall. split.
  - unfold create_purchase_dataframe. by rewrite all_purchases_nil.
  - intros scenarios st st' summary_df Hrun Hsum. unfold analyze. rewrite Hrun.
    destruct results as [|r rs]; [done|]. rewrite Hsum, all_purchases_nil by done.
    unfold run_scenario_tests in Hrun.
    destruct (run_scenarios_spec subprocess_run json_dumps scenarios [] st)
      as (st'' & printed & E & He & Hp & _).
    rewrite Hrun in E. injection E as _ <-.
    eexists. split.
    + unfold print, emit. cbn [world events]. rewrite He, <- !app_assoc. reflexivity.
    + apply Forall_app. split; [done|]. by repeat constructor.
Qed.

Lemma empty_purchases_raise_witness :
  create_purchase_dataframe EMPTY_RESULTS = Raise (KeyError (lit "eth_spent")) /\
  exists printed,
    main replay no_json {| world := EMPTY_RUN; events := [] |} =
      (Ok NoPurchaseData,
       {| world := EMPTY_RUN; events := MakeDirs OUTPUT_DIR :: printed |}) /\
    Forall (fun e => is_print e = true) printed.
Proof.
  destruct (empty_purchases_raise replay no_json EMPTY_RESULTS) as [Hraise Hmain].
  - discriminate.
  - repeat constructor.
  - split; [exact Hraise|].
    eapply (Hmain SCENARIOS (new_analyzer OUTPUT_DIR {| world := EMPTY_RUN; events := [] |})
              {| world := EMPTY_RUN; events := _ |}).
    + vm_compute. reflexivity.
    + vm_compute. reflexivity.
Defined.

(** A division by [+0.0] gives an infinity or not-a-number. *)
Lemma div_zero_special (x : float) :
  (PrimFloat.is_nan (x / 0) || PrimFloat.is_infinity (x / 0))%float = true.
Proof.
  rewrite <- (SF2Prim_Prim2SF (x / 0)%float), div_spec.
  change (Prim2SF 0%float) with (S754_zero false).
  destruct (Prim2SF x) as [[]| []| |[] ? ?]; reflexivity.
Qed.

(** C4, as stated, fails: a row that spent no ETH and received tokens gets
    an infinity, not not-a-number. *)
Lemma zero_eth_gives_infinity :
  ~ (forall results df,
       create_purchase_dataframe results = Ok df ->
       exists df' ratio,
         tokens_per_eth df = Ok df' /\
         getitem df' (lit "tokens_per_eth") = Ok ratio /\
         forall i eth,
           getitem df (lit "eth_spent") = Ok eth -> eth !! i = Some (CInt 0) ->
           ratio !! i = Some (CFloat nan)).
Proof.
  intros H.
  destruct (create_purchase_dataframe [ZERO_ETH_RESULT]) as [df|] eqn:E;
    [|vm_compute in E; discriminate].
  destruct (H _ _ E) as (df' & ratio & E1 & E2 & E3).
  vm_compute in E. injection E as <-.
  vm_compute in E1. injection E1 as <-.
  vm_compute in E2. injection E2 as <-.
  specialize (E3 0%nat [CInt 0] eq_refl eq_refl).
  apply (f_equal (fun o => match o with
                           | Some (CFloat q) => PrimFloat.is_nan q
                           | _ => false
                           end)) in E3.
  vm_compute in E3. discriminate.
Qed.

(** With a column of dtype [object] the division is Python's, and a row that
    spent no ETH makes it raise. *)
Lemma zero_eth_object_raises :
  create_purchase_dataframe [ZERO_ETH_WEI_RESULT] ≫= tokens_per_eth = Raise ZeroDivisionError.
Proof. vm_compute. reflexivity. Qed.

(** C4, amended.  For every purchase table whose columns [tokens_received]
    and [eth_spent] have a numeric dtype (their values fit in 64 bits),
    computing [tokens_per_eth] does not raise, changes no other column, and
    gives each row the binary64 quotient of its two values; on a row with
    [eth_spent] equal to zero that quotient is an infinity or not-a-number,
    and it is not-a-number when [tokens_received] is zero too. *)
Theorem tokens_per_eth_ieee (df : DataFrame) (tokens eth : list cell) :
  getitem df (lit "tokens_received") = Ok tokens ->
  getitem df (lit "eth_spent") = Ok eth ->
  infer_dtype tokens <> Object ->
  infer_dtype eth <> Object ->
  exists df',
    tokens_per_eth df = Ok df' /\
    getitem df' (lit "tokens_per_eth") =
      Ok (zip_with (fun t e => CFloat (as_float64 t / as_float64 e)) tokens eth) /\
    (forall c, c <> lit "tokens_per_eth" -> getitem df' c = getitem df c) /\
    (forall i t,
       tokens !! i = Some t -> eth !! i = Some (CInt 0) ->
       exists q,
         zip_with (fun t e => CFloat (as_float64 t / as_float64 e)) tokens eth !! i =
           Some (CFloat q) /\
         (PrimFloat.is_nan q || PrimFloat.is_infinity q)%float = true /\
         (t = CInt 0 -> PrimFloat.is_nan q = true)).
Proof.
  intros Ht He Hdt Hde. eexists. split; [|split; [|split]].
  - unfold tokens_per_eth. rewrite Ht, He. cbn [mbind res_mbind res_bind].
    unfold series_truediv.
    destruct (infer_dtype tokens), (infer_dtype eth); try done; reflexivity.
  - rewrite getitem_setitem. by rewrite bool_decide_true.
  - intros c Hc. rewrite getitem_setitem. by rewrite bool_decide_false.
  - intros i t Hti Hei. eexists. split.
    + rewrite lookup_zip_with, Hti, Hei. reflexivity.
    + change (as_float64 (CInt 0)) with 0%float. split; [apply div_zero_special|].
      by intros ->.
Qed.

Lemma tokens_per_eth_ieee_witness :
  exists df',
    tokens_per_eth ZERO_ETH_TABLE = Ok df' /\
    getitem df' (lit "tokens_per_eth") =
      Ok (zip_with (fun t e => CFloat (as_float64 t / as_float64 e)) [CInt 20] [CInt 0]) /\
    (forall c, c <> lit "tokens_per_eth" -> getitem df' c = getitem ZERO_ETH_TABLE c) /\
    (forall i t,
       [CInt 20] !! i = Some t -> [CInt 0] !! i = Some (CInt 0) ->
       exists q,
         zip_with (fun t e => CFloat (as_float64 t / as_float64 e)) [CInt 20] [CInt 0] !! i =
           Some (CFloat q) /\
         (PrimFloat.is_nan q || PrimFloat.is_infinity q)%float = true /\
         (t = CInt 0 -> PrimFloat.is_nan q = true)).
Proof.
  apply (tokens_per_eth_ieee ZERO_ETH_TABLE [CInt 20] [CInt 0]).
  - vm_compute. reflexivity.
  - vm_compute. reflexivity.
  - vm_compute. discriminate.
  - vm_compute. discriminate.
Defined.

End PurchaseTable.

(** * Further properties of the extraction *)

(** ** Stripping and reading numbers *)

Module TextFacts.

Lemma lstrip_split (s : str) :
  exists w, s = w ++ lstrip s /\ is_spaces w = true /\ stops is_space (lstrip s) = true.
Proof.
  induction s as [|c s (w & E & Hw & Hs)]; [by exists []|].
  simpl. destruct (is_space c) eqn:Hc.
  - exists (c :: w). simpl. rewrite Hc. by rewrite <- E.
  - exists []. simpl. by rewrite Hc.
Qed.

Lemma rstrip_split (s : str) :
  exists w, s = rstrip s ++ w /\ is_spaces w = true /\ stops is_space (rev (rstrip s)) = true.
Proof.
  unfold rstrip. destruct (lstrip_split (rev s)) as (w & E & Hw & Hs).
  exists (rev w). rewrite rev_involutive. split; [|split; [|done]].
  - by rewrite <- rev_app_distr, <- E, rev_involutive.
  - unfold is_spaces in *. apply forallb_forall. intros x Hx%in_rev.
    by eapply forallb_forall in Hw.
Qed.

Lemma stops_prefix cls (x w : str) : stops cls (x ++ w) = true -> stops cls x = true.
Proof. by destruct x. Qed.

(** What [strip] returns has no white space at either end. *)
Lemma strip_stops (s : str) :
  stops is_space (strip s) = true /\ stops is_space (rev (strip s)) = true.
Proof.
  unfold strip. destruct (lstrip_split s) as (w1 & _ & _ & H1).
  destruct (rstrip_split (lstrip s)) as (w2 & E & _ & H2).
  split; [|done]. rewrite E in H1. by eapply stops_prefix.
Qed.

Lemma strip_idemp (s : str) : strip (strip s) = strip s.
Proof.
  destruct (strip_stops s) as [H1 H2].
  by apply (PatternFacts.strip_label [] (strip s)).
Qed.

Lemma forallb_strip (P : ascii -> bool) (s : str) :
  forallb P s = true -> forallb P (strip s) = true.
Proof.
  unfold strip. destruct (lstrip_split s) as (w1 & E1 & _).
  destruct (rstrip_split (lstrip s)) as (w2 & E2 & _).
  intros H. rewrite E1, E2, !forallb_app in H.
  by destruct (forallb P (rstrip (lstrip s))), (forallb P w1).
Qed.

Lemma digit_val_range c : is_digit c = true -> 0 <= digit_val c <= 9.
Proof.
  unfold is_digit, digit_val. intros [H1 H2]%andb_prop.
  apply N.leb_le in H1, H2. lia.
Qed.

Lemma fold_digits_nonneg (d : str) (acc : Z) :
  forallb is_digit d = true -> 0 <= acc ->
  0 <= fold_left (fun acc c => 10 * acc + digit_val c) d acc.
Proof.
  revert acc. induction d as [|c d IH]; intros acc H Hacc; [done|].
  simpl in H. apply andb_prop in H as [Hc Hd].
  simpl. apply IH; [done|]. pose proof (digit_val_range c Hc). lia.
Qed.

Lemma int_of_digits_nonneg (d : str) : forallb is_digit d = true -> 0 <= int_of_digits d.
Proof. intros H. by apply fold_digits_nonneg. Qed.

End TextFacts.

(** ** Matches and their groups *)

Module GroupFacts.
Import ReFacts ScanFacts PatternFacts InvFacts.

Lemma mh_rep_groups g min cls cap re s r :
  match_here (Rep g min cls cap :: re) s = Some r ->
  exists w s' r',
    s = w ++ s' /\ forallb cls w = true /\ (min <= length w)%nat /\
    match_here re s' = Some r' /\ r = add_group cap w r'.
Proof. intros H. by apply rep_sound in H. Qed.

(** A match of the purchase pattern is a complete block, whose four numbers
    are the groups. *)
Lemma match_block_groups s r :
  match_here purchase_re s = Some r ->
  exists b,
    block_ok b = true /\ s = render_block b ++ r.2 /\
    r.1 = [b_num b; b_eth b; b_tokens b; b_price b].
Proof.
  unfold purchase_re. intros H.
  apply mh_lit_inv in H as (s1 & -> & H).
  apply mh_rep_groups in H as (w1 & s2 & r2 & -> & Hw1 & _ & H & ->).
  apply mh_rep_groups in H as (n & s3 & r3 & -> & Hn & Hn1 & H & ->).
  apply mh_rep_groups in H as (w2 & s4 & r4 & -> & Hw2 & _ & H & ->).
  apply mh_lit_inv in H as (s5 & -> & H).
  apply mh_rep_groups in H as (w3 & s6 & r6 & -> & Hw3 & _ & H & ->).
  apply mh_rep_groups in H as (e & s7 & r7 & -> & He & He1 & H & ->).
  apply mh_rep_groups in H as (w4 & s8 & r8 & -> & Hw4 & _ & H & ->).
  apply mh_lit_inv in H as (s9 & -> & H).
  apply mh_rep_groups in H as (w5 & s10 & r10 & -> & Hw5 & _ & H & ->).
  apply mh_rep_groups in H as (t & s11 & r11 & -> & Ht & Ht1 & H & ->).
  apply mh_rep_groups in H as (w6 & s12 & r12 & -> & Hw6 & _ & H & ->).
  apply mh_lit_inv in H as (s13 & -> & H).
  apply mh_rep_groups in H as (w7 & s14 & r14 & -> & Hw7 & _ & H & ->).
  apply mh_rep_groups in H as (p & s15 & r15 & -> & Hp & Hp1 & H & ->).
  injection H as <-. cbn [add_group fst snd].
  exists (Block w1 n w2 w3 e w4 w5 t w6 w7 p). split; [|split; [|done]].
  - unfold block_ok, is_spaces. cbn.
    by rewrite Hw1, Hw2, Hw3, Hw4, Hw5, Hw6, Hw7, !is_number_intro.
  - unfold render_block. cbn [b_ws1 b_num b_ws2 b_ws3 b_eth b_ws4 b_ws5 b_tokens b_ws6 b_ws7 b_price].
    by rewrite <- !app_assoc.
Qed.

(** A match of the pair pattern: a run without colon, and a run of
    digits. *)
Lemma match_pair_groups s r :
  match_here pair_re s = Some r ->
  exists k v,
    r.1 = [k; v] /\ forallb not_colon k = true /\ forallb is_digit v = true.
Proof.
  unfold pair_re. intros H.
  apply mh_rep_groups in H as (k & s1 & r1 & -> & Hk & _ & H & ->).
  apply mh_lit_inv in H as (s2 & -> & H).
  apply mh_rep_groups in H as (w & s3 & r3 & -> & _ & _ & H & ->).
  apply mh_rep_groups in H as (v & s4 & r4 & -> & Hv & _ & H & ->).
  injection H as <-. cbn [add_group fst snd].
  by exists k, v.
Qed.

Section scan.
Context (re : regex).

(** Every match [findall] reports is a match of the pattern somewhere in
    the text. *)
Lemma findall_from_elem skip s groups :
  groups ∈ findall_from re skip s ->
  exists a b rest, s = a ++ b /\ match_here re b = Some (groups, rest).
Proof.
  revert skip. induction s as [|c s IH]; intros skip.
  - destruct skip; simpl; [|by intros ?%elem_of_nil].
    destruct (match_here re []) as [[g rest]|] eqn:E; [|by intros ?%elem_of_nil].
    intros ->%list_elem_of_singleton. by exists [], [], rest.
  - destruct skip as [|n]; simpl.
    + destruct (match_here re (c :: s)) as [[g rest]|] eqn:E.
      * intros [->|H]%elem_of_cons; [by exists [], (c :: s), rest|].
        apply IH in H as (a & b & rest' & -> & H). by exists (c :: a), b, rest'.
      * intros H. apply IH in H as (a & b & rest' & -> & H). by exists (c :: a), b, rest'.
    + intros H. apply IH in H as (a & b & rest' & -> & H). by exists (c :: a), b, rest'.
Qed.

(** When [findall] reports nothing, the pattern matches nowhere. *)
Lemma findall_nil_inv s :
  findall re s = [] -> forall a b, s = a ++ b -> match_here re b = None.
Proof.
  unfold findall. induction s as [|c s IH]; simpl.
  - destruct (match_here re []) as [[g rest]|] eqn:E; [done|].
    intros _ a b Hab. symmetry in Hab. apply app_eq_nil in Hab as [_ ->]. done.
  - destruct (match_here re (c :: s)) as [[g rest]|] eqn:E; [done|].
    intros H [|c' a] b Hab; simpl in Hab.
    + by subst b.
    + injection Hab as _ ->. by eapply IH.
Qed.

End scan.

Lemma mh_lit_some l re s :
  is_Some (match_here re s) -> is_Some (match_here (Lit l :: re) (l ++ s)).
Proof. by rewrite match_here_lit. Qed.

Lemma mh_rep_some g min cls cap re w s :
  forallb cls w = true -> (min <= length w)%nat -> is_Some (match_here re s) ->
  is_Some (match_here (Rep g min cls cap :: re) (w ++ s)).
Proof. intros. by apply rep_complete. Qed.

(** The purchase pattern matches at every complete block, whatever
    follows it. *)
Lemma match_block_some b post :
  block_ok b = true -> is_Some (match_here purchase_re (render_block b ++ post)).
Proof.
  unfold block_ok, is_spaces. rewrite !andb_true_iff.
  intros ((((((((((H1 & Hn%is_number_spec) & H2) & H3) & He%is_number_spec) & H4) & H5) &
    Ht%is_number_spec) & H6) & H7) & Hp%is_number_spec).
  destruct Hn as [Hn0 Hn], He as [He0 He], Ht as [Ht0 Ht], Hp as [Hp0 Hp].
  assert (forall d : str, d <> [] -> (1 <= length d)%nat) as Hlen
    by (intros [|? ?] ?; [done|simpl; lia]).
  unfold render_block, purchase_re. rewrite <- !app_assoc.
  apply mh_lit_some.
  apply mh_rep_some; [done|lia|]. apply mh_rep_some; [done|by apply Hlen|].
  apply mh_rep_some; [done|lia|]. apply mh_lit_some.
  apply mh_rep_some; [done|lia|]. apply mh_rep_some; [done|by apply Hlen|].
  apply mh_rep_some; [done|lia|]. apply mh_lit_some.
  apply mh_rep_some; [done|lia|]. apply mh_rep_some; [done|by apply Hlen|].
  apply mh_rep_some; [done|lia|]. apply mh_lit_some.
  apply mh_rep_some; [done|lia|]. apply mh_rep_some; [done|by apply Hlen|].
  by eexists.
Qed.

End GroupFacts.

(** ** What [parse_test_output] returns, for any text *)

Section Parsed.
Import TextFacts GroupFacts.

Lemma lookup_fold_metrics (l : list (list str)) (m : gmap str Z) k v :
  fold_left add_metric l m !! k = Some v ->
  m !! k = Some v \/
  exists groups, groups ∈ l /\ k = strip (group 0 groups) /\ v = int_of_digits (group 1 groups).
Proof.
  revert m. induction l as [|g l IH]; intros m; simpl; [by left|].
  intros [H|(groups & Hin & Hk)]%IH.
  - unfold add_metric in H. apply lookup_insert_Some in H as [[<- <-]|[_ H]]; [|by left].
    right. exists g. split; [left|done].
  - right. exists groups. split; [by right|done].
Qed.

(** X1.  Whatever the text, the metrics and records [parse_test_output]
    returns are well formed: no value and no field of a record is negative,
    and a key of [summary] has no colon and no white space at either end
    ([strip] leaves it as it is). *)
Theorem parsed_values_invariant (output : str) (r : parsed) :
  parse_test_output output = Some r ->
  (forall k v, summary r !! k = Some v ->
     0 <= v /\ forallb not_colon k = true /\ strip k = k) /\
  Forall (fun p => 0 <= purchase_num p /\ 0 <= eth_spent p /\
                   0 <= tokens_received p /\ 0 <= current_price p) (purchases r).
Proof.
  unfold parse_test_output. destruct (find_summary output) as [text|]; [|done].
  intros [= <-]. cbn [summary purchases]. split.
  - intros k v [H|(groups & Hin & -> & ->)]%lookup_fold_metrics; [by rewrite lookup_empty in H|].
    apply findall_from_elem in Hin as (a & b & rest & _ & Hm).
    apply match_pair_groups in Hm as (key & val & Hg & Hkey & Hval).
    cbn [fst] in Hg. subst groups. cbn [group nth].
    split; [by apply int_of_digits_nonneg|].
    split; [by apply forallb_strip|apply strip_idemp].
  - unfold parse_purchases. apply Forall_forall. intros p Hp.
    apply list_elem_of_In, in_map_iff in Hp as (groups & <- & Hin%list_elem_of_In).
    apply findall_from_elem in Hin as (a & b & rest & _ & Hm).
    apply match_block_groups in Hm as (blk & Hok & _ & Hg). cbn [fst] in Hg. subst groups.
    unfold block_ok in Hok. rewrite !andb_true_iff in Hok.
    destruct Hok as ((((((((((_ & [_ Hn]%PatternFacts.is_number_spec) & _) & _) &
      [_ He]%PatternFacts.is_number_spec) & _) & _) & [_ Ht]%PatternFacts.is_number_spec) & _) & _) &
      [_ Hp]%PatternFacts.is_number_spec).
    unfold purchase_of_groups. cbn [group nth purchase_num eth_spent tokens_received current_price].
    repeat split; by apply int_of_digits_nonneg.
Qed.

Lemma parsed_values_invariant_witness :
  (forall k v, SAMPLE_METRICS !! k = Some v ->
     0 <= v /\ forallb not_colon k = true /\ strip k = k) /\
  Forall (fun p => 0 <= purchase_num p /\ 0 <= eth_spent p /\
                   0 <= tokens_received p /\ 0 <= current_price p) SAMPLE_RECORDS.
Proof.
  apply (parsed_values_invariant SAMPLE_OUTPUT (Parsed SAMPLE_METRICS SAMPLE_RECORDS)).
  vm_compute. reflexivity.
Defined.

(** X2.  The purchase records are exactly the complete blocks the scan
    finds: every record is the record of a complete block that stands in the
    text, and the list is empty if and only if the text has no complete
    block (a block that lacks one of its four lines gives no record). *)
Theorem purchases_are_blocks (output : str) :
  Forall (fun p => exists pre b post,
            block_ok b = true /\ output = pre ++ render_block b ++ post /\
            p = block_purchase b)
    (parse_purchases output) /\
  (parse_purchases output = [] <-> ~ has_purchase_block output).
Proof.
  split; [|split].
  - unfold parse_purchases. apply Forall_forall. intros p Hp.
    apply list_elem_of_In, in_map_iff in Hp as (groups & <- & Hin%list_elem_of_In).
    apply findall_from_elem in Hin as (a & b & rest & -> & Hm).
    apply match_block_groups in Hm as (blk & Hok & -> & Hg). cbn [fst snd] in *. subst groups.
    by exists a, blk, rest.
  - intros Hnil (pre & b & post & Hok & ->).
    unfold parse_purchases in Hnil. apply map_eq_nil in Hnil.
    pose proof (findall_nil_inv _ _ Hnil pre (render_block b ++ post) eq_refl) as Hnone.
    destruct (match_block_some b post Hok) as [r Hr]. congruence.
  - apply InvFacts.no_block_no_purchase.
Qed.

(** X3.  The summary is read between the first opening marker and the first
    closing marker after it, the white space after the opening marker left
    out: what stands before the opening marker and after the closing marker,
    a second summary section included, does not reach the metrics. *)
Theorem summary_between_first_markers (pre w body post : str) :
  begins_in SUMMARY_OPEN pre = false -> is_spaces w = true ->
  stops is_space body = true -> begins_in SUMMARY_CLOSE body = false ->
  exists r,
    parse_test_output (pre ++ SUMMARY_OPEN ++ w ++ body ++ SUMMARY_CLOSE ++ post) = Some r /\
    summary r = parse_metrics body.
Proof.
  intros Hpre Hw Hbody Hclose. unfold parse_test_output.
  rewrite PatternFacts.find_summary_section by done. by eexists.
Qed.

Lemma summary_between_first_markers_witness :
  exists r,
    parse_test_output TWO_SECTIONS_OUTPUT = Some r /\
    summary r = parse_metrics (lit "Final price: 400" ++ nl).
Proof.
  apply (summary_between_first_markers (lit "Logs:" ++ nl) nl (lit "Final price: 400" ++ nl)
           (lit " -------" ++ nl ++ SAMPLE_SUMMARY)); reflexivity.
Defined.

End Parsed.

(** ** Labels and keys *)

Section Keys.
Import TextFacts GroupFacts ScanFacts PatternFacts.

Lemma lookup_fold_lines (ls : list line) (m : gmap str Z) (k : str) :
  k ∉ l_label <$> ls ->
  fold_left (fun m l => <[l_label l := int_of_digits (l_value l)]> m) ls m !! k = m !! k.
Proof.
  revert m. induction ls as [|l ls IH]; intros m Hk; [done|].
  rewrite fmap_cons, not_elem_of_cons in Hk. destruct Hk as [Hl Hls].
  simpl. rewrite IH by done. by rewrite lookup_insert_ne.
Qed.

(** X4.  When a label stands on several lines of a well-formed summary,
    its value is the one of its last line. *)
Theorem duplicate_label_last_wins (ls1 ls2 : list line) (l : line) :
  forallb line_ok (ls1 ++ l :: ls2) = true ->
  l_label l ∉ l_label <$> ls2 ->
  parse_metrics (summary_body (ls1 ++ l :: ls2)) !! l_label l =
    Some (int_of_digits (l_value l)).
Proof.
  intros Hok Hlast. rewrite parse_metrics_lines by done.
  unfold line_metrics. rewrite fold_left_app. cbn [fold_left].
  rewrite lookup_fold_lines by done. apply lookup_insert_eq.
Qed.

Lemma duplicate_label_last_wins_witness :
  parse_metrics
    (summary_body
       (SAMPLE_LINES ++ Line (lit "Final price") (lit " ") (lit "500") nl ::
        [Line (lit "Starting price") (lit " ") (lit "90") nl])) !! lit "Final price" =
    Some 500.
Proof.
  apply (duplicate_label_last_wins SAMPLE_LINES
           [Line (lit "Starting price") (lit " ") (lit "90") nl]
           (Line (lit "Final price") (lit " ") (lit "500") nl)).
  - reflexivity.
  - vm_compute. intros H. repeat (apply elem_of_cons in H as [H|H]; [discriminate|]).
    by apply elem_of_nil in H.
Defined.

Lemma pair_ok_spec p :
  pair_ok p = true ->
  p_before p <> [] /\ forallb not_colon (p_before p) = true /\
  stops is_digit (p_before p) = true /\ is_spaces (p_gap p) = true /\
  p_digits p <> [] /\ forallb is_digit (p_digits p) = true.
Proof.
  unfold pair_ok. rewrite !andb_true_iff.
  intros ((((H1 & H2) & H3) & H4) & [H5 H6]%is_number_spec).
  repeat split; try done. by destruct (p_before p).
Qed.

(** The pair pattern on a pair, when what follows does not go on with
    digits. *)
Lemma match_pair_text p rest :
  pair_ok p = true -> stops is_digit rest = true ->
  match_here pair_re (render_pair p ++ rest) = Some ([p_before p; p_digits p], rest).
Proof.
  intros (H1 & H2 & _ & H4 & H5 & H6)%pair_ok_spec Hrest.
  unfold render_pair, pair_re. rewrite <- !app_assoc.
  apply mh_group; [done|done|destruct (p_before p); [done|simpl; lia]|].
  apply mh_lit. apply mh_skip; [done|by apply stops_space_digits|lia|].
  apply mh_group; [done|done|destruct (p_digits p); [done|simpl; lia]|done].
Qed.

Lemma pairs_body_stops ps tail :
  forallb pair_ok ps = true -> stops is_digit tail = true ->
  stops is_digit (pairs_body ps ++ tail) = true.
Proof.
  destruct ps as [|p ps]; [done|]. simpl. intros [Hp _]%andb_prop _.
  apply pair_ok_spec in Hp as (H1 & _ & H3 & _).
  unfold pairs_body, render_pair. cbn [map concat]. rewrite <- !app_assoc.
  by rewrite stops_app_nonempty.
Qed.

Lemma findall_pairs ps tail :
  forallb pair_ok ps = true -> forallb not_colon tail = true -> stops is_digit tail = true ->
  findall_from pair_re 0 (pairs_body ps ++ tail) = map (fun p => [p_before p; p_digits p]) ps.
Proof.
  intros Hps Htail Hstop. induction ps as [|p ps IH].
  - apply findall_none. intros a b Hab. change (tail = a ++ b) in Hab. subst tail.
    apply match_pair_None.
    rewrite forallb_app in Htail. by apply andb_prop in Htail as [_ ?].
  - simpl in Hps. apply andb_prop in Hps as [Hp Hps].
    unfold pairs_body. cbn [map concat]. fold (pairs_body ps). rewrite <- app_assoc.
    rewrite (findall_hit pair_re (render_pair p) _ [p_before p; p_digits p]).
    + by rewrite IH.
    + unfold render_pair. apply pair_ok_spec in Hp as (H1 & _). by destruct (p_before p).
    + apply match_pair_text; [done|]. by apply pairs_body_stops.
Qed.

(** X5.  The key of a pair is all the text between the number of the pair
    before it (or the start of the summary) and its own colon, stripped at
    both ends only: line breaks and words inside stay, so a line without a
    number becomes part of the key of the line after it. *)
Theorem pair_key_spans_text (ps : list pair_text) (tail : str) :
  forallb pair_ok ps = true -> forallb not_colon tail = true -> stops is_digit tail = true ->
  findall pair_re (pairs_body ps ++ tail) = map (fun p => [p_before p; p_digits p]) ps /\
  parse_metrics (pairs_body ps ++ tail) = pair_metrics ps.
Proof.
  intros Hps Htail Hstop. unfold parse_metrics, findall.
  rewrite findall_pairs by done. split; [done|].
  unfold pair_metrics. generalize (∅ : gmap str Z).
  clear Hps. induction ps as [|p ps IH]; intros m; [done|]. apply IH.
Qed.

Lemma pair_key_spans_text_witness :
  parse_metrics
    (lit "Sale closed" ++ nl ++ lit "Final price: 400" ++ nl ++
     lit "Tokens sold in sale: 7" ++ nl) =
  {[ lit "Sale closed" ++ nl ++ lit "Final price" := 400; lit "Tokens sold in sale" := 7 ]}.
Proof.
  destruct (pair_key_spans_text NOTE_PAIRS nl) as [_ H]; [reflexivity..|].
  etransitivity; [exact H|]. vm_compute. reflexivity.
Defined.

End Keys.

(** ** Numbers written and read back *)

Section Decimal.
Import PatternFacts.

Local Abbreviation step := (fun (acc : Z) (c : ascii) => 10 * acc + digit_val c).










End Decimal.

(** * Further properties of the tables *)

Module ScaleFacts.
Import FrameFacts.

Lemma res_map_Raise {A B} (f : A -> res B) (l : list A) e :
  res_map f l = Raise e -> exists x, x ∈ l /\ f x = Raise e.
Proof.
  induction l as [|x l IH]; [done|]. simpl.
  destruct (f x) as [y|e'] eqn:Hx; cbn [mbind res_mbind res_bind].
  - destruct (res_map f l) as [ys|e'] eqn:Hl; [done|]. cbn [mbind res_mbind res_bind].
    intros [= ->]. destruct IH as (x' & Hin & Hx'); [done|]. exists x'. split; [by right|done].
  - intros [= ->]. exists x. split; [by left|done].
Qed.

(** An integer divided by a float that is not zero. *)
Lemma scale_int (d : float) (z : Z) :
  PrimFloat.is_zero d = false ->
  scale d (CInt z) =
    if FLOAT_OVERFLOW <=? Z.abs z then Raise OverflowError else Ok (scaled d z).
Proof.
  intros Hd. unfold scale, py_truediv, py_float_of_int.
  destruct (FLOAT_OVERFLOW <=? Z.abs z); [done|].
  cbn [mbind res_mbind res_bind]. unfold py_float_truediv. by rewrite Hd.
Qed.

Lemma scale_or_zero_int (d : float) (z : Z) :
  PrimFloat.is_zero d = false ->
  scale_or_zero d (CInt z) =
    if FLOAT_OVERFLOW <=? Z.abs z then Raise OverflowError else Ok (scaled_or_zero d z).
Proof.
  intros Hd. unfold scale_or_zero, scaled_or_zero. cbn [truthy].
  destruct (z =? 0) eqn:Hz; cbn [negb]; [|by apply scale_int].
  apply Z.eqb_eq in Hz as ->. reflexivity.
Qed.

Lemma res_map_ints {A} (f g : cell -> res cell) (h : Z -> cell) (m : A -> Z) (l : list A) :
  (forall z, f (CInt z) =
     if FLOAT_OVERFLOW <=? Z.abs z then Raise OverflowError else Ok (h z)) ->
  res_map f (map (fun x => CInt (m x)) l) =
    if forallb (fun x => Z.abs (m x) <? FLOAT_OVERFLOW) l
    then Ok (map (fun x => h (m x)) l) else Raise OverflowError.
Proof.
  intros Hf. induction l as [|x l IH]; [done|].
  cbn [map res_map forallb]. rewrite Hf, Z.ltb_antisym.
  destruct (FLOAT_OVERFLOW <=? Z.abs (m x)); [done|].
  cbn [negb andb mbind res_mbind res_bind]. rewrite IH.
  by destruct (forallb _ l).
Qed.

Lemma convert_objects_floats (col : list cell) :
  forallb is_float col = true -> convert_objects col = col.
Proof.
  intros H. unfold convert_objects. destruct (infer_dtype col); try done.
  induction col as [|c col IH]; [done|]. simpl in H. apply andb_prop in H as [Hc H].
  cbn [map]. rewrite IH by done. by destruct c.
Qed.

End ScaleFacts.

Module PurchaseFacts.
Import FrameFacts ScaleFacts.

Lemma all_purchases_rows results :
  all_purchases results = map (fun np => purchase_record np.1 np.2) (purchase_rows results).
Proof.
  unfold all_purchases, purchase_rows. induction results as [|r rs IH]; [done|].
  cbn [map concat]. rewrite map_app, IH, map_map. done.
Qed.

Lemma record_keys_purchases (np : str * purchase) rows :
  record_keys (map (fun np => purchase_record np.1 np.2) (np :: rows)) =
    [ lit "purchase_num"; lit "eth_spent"; lit "tokens_received"; lit "current_price";
      lit "scenario" ].
Proof.
  unfold record_keys. cbn [map fold_left].
  set (keys := [ lit "purchase_num"; lit "eth_spent"; lit "tokens_received";
                 lit "current_price"; lit "scenario" ]).
  change (fold_left add_key (map fst (purchase_record np.1 np.2)) []) with keys.
  induction rows as [|np' rows IH]; [done|]. cbn [map fold_left].
  by change (fold_left add_key (map fst (purchase_record np'.1 np'.2)) keys) with keys.
Qed.

Lemma purchase_column (k : str) (f : str * purchase -> cell) rows :
  (forall np, default (CFloat nan) (lookup_key k (purchase_record np.1 np.2)) = f np) ->
  (forall np, is_float (f np) = false) ->
  convert_objects
    (map (fun rec => default (CFloat nan) (lookup_key k rec))
       (map (fun np => purchase_record np.1 np.2) rows)) =
  map f rows.
Proof.
  intros Hf Hnf. rewrite map_map, (map_ext _ f) by done.
  apply convert_objects_no_float. induction rows as [|r rs IH]; [done|].
  simpl. by rewrite Hnf.
Qed.

(** The table of the records of rows that are not empty, before the unit
    conversions. *)
Lemma raw_purchase_table_eq np rows :
  DataFrame_of_records (map (fun np => purchase_record np.1 np.2) (np :: rows)) =
    {| df_rows := length (np :: rows);
       df_cols :=
         [ (lit "purchase_num", field_column purchase_num (np :: rows));
           (lit "eth_spent", field_column eth_spent (np :: rows));
           (lit "tokens_received", field_column tokens_received (np :: rows));
           (lit "current_price", field_column current_price (np :: rows));
           (lit "scenario", map (fun np => CStr np.1) (np :: rows)) ] |}.
Proof.
  unfold DataFrame_of_records.
  rewrite record_keys_purchases, length_map. f_equal.
  generalize (np :: rows) as rs. intros rs.
  unfold field_column. cbn [map].
  repeat (f_equal; [f_equal; apply purchase_column; intros; reflexivity|]).
  do 2 f_equal. apply purchase_column; intros; reflexivity.
Qed.

Lemma apply_scale_column (d : float) (f : purchase -> Z) rows :
  PrimFloat.is_zero d = false ->
  apply (scale d) (field_column f rows) =
    if forallb (fun np : str * purchase => Z.abs (f np.2) <? FLOAT_OVERFLOW) rows
    then Ok (scaled_column d f rows) else Raise OverflowError.
Proof.
  intros Hd. unfold apply, field_column.
  rewrite (res_map_ints (scale d) (scale d) (scaled d)) by (intros; by apply scale_int).
  destruct (forallb _ rows); [|done]. cbn [fmap res_map_inst res_fmap].
  f_equal. apply convert_objects_floats. unfold scaled_column. by induction rows.
Qed.

Lemma forallb_fits_rows results :
  forallb (fun np : str * purchase => fits_purchase np.2) (purchase_rows results) =
    forallb (fun r => forallb fits_purchase (purchases (data r))) results.
Proof.
  unfold purchase_rows. induction results as [|r rs IH]; [done|].
  cbn [map concat forallb]. rewrite forallb_app, IH. f_equal.
  induction (purchases (data r)) as [|p ps IHp]; [done|]. simpl. by rewrite IHp.
Qed.

Lemma forallb_fits_split (rows : list (str * purchase)) :
  forallb (fun np => fits_purchase np.2) rows =
    forallb (fun np => Z.abs (eth_spent np.2) <? FLOAT_OVERFLOW) rows &&
    forallb (fun np => Z.abs (tokens_received np.2) <? FLOAT_OVERFLOW) rows &&
    forallb (fun np => Z.abs (current_price np.2) <? FLOAT_OVERFLOW) rows.
Proof.
  induction rows as [|np rows IH]; [done|]. cbn [forallb]. rewrite IH.
  unfold fits_purchase.
  destruct (Z.abs (eth_spent np.2) <? _), (Z.abs (tokens_received np.2) <? _),
    (Z.abs (current_price np.2) <? _), (forallb _ rows), (forallb _ rows), (forallb _ rows);
    reflexivity.
Qed.

(** [create_purchase_dataframe], computed. *)
Lemma create_purchase_dataframe_eq results :
  create_purchase_dataframe results =
    match purchase_rows results with
    | [] => Raise (KeyError (lit "eth_spent"))
    | rows =>
        if forallb (fun r => forallb fits_purchase (purchases (data r))) results
        then Ok (purchase_table_of rows) else Raise OverflowError
    end.
Proof.
  unfold create_purchase_dataframe. rewrite all_purchases_rows, <- forallb_fits_rows.
  destruct (purchase_rows results) as [|np rows]; [done|]. cbv beta iota.
  rewrite raw_purchase_table_eq, forallb_fits_split. generalize (np :: rows) as rs. intros rs.
  unfold purchase_units.
  erewrite derive_eq by reflexivity. rewrite apply_scale_column by done.
  destruct (forallb _ rs); [|done]. cbn [mbind res_mbind res_bind andb].
  erewrite derive_eq by reflexivity. rewrite apply_scale_column by done.
  destruct (forallb _ rs); [|done]. cbn [mbind res_mbind res_bind andb].
  erewrite derive_eq by reflexivity. rewrite apply_scale_column by done.
  destruct (forallb _ rs); [|done]. reflexivity.
Qed.

End PurchaseFacts.

Module SummaryValue.
Import FrameFacts ScaleFacts SummaryFacts.

Lemma apply_scale_or_zero_column (d : float) (key : string) results :
  PrimFloat.is_zero d = false ->
  apply (scale_or_zero d) (metric_column key results) =
    if forallb (fun r => Z.abs (default 0 (summary (data r) !! lit key)) <? FLOAT_OVERFLOW)
         results
    then Ok (converted_column d key results) else Raise OverflowError.
Proof.
  intros Hd. unfold apply, metric_column, get_metric.
  rewrite (res_map_ints (scale_or_zero d) (scale_or_zero d) (scaled_or_zero d)
             (fun r => default 0 (summary (data r) !! lit key)))
    by (intros; by apply scale_or_zero_int).
  by destruct (forallb _ results).
Qed.

Lemma forallb_fits_float_split results :
  forallb fits_float results =
    forallb (fun r => Z.abs (default 0 (summary (data r) !! lit "Starting price")) <? FLOAT_OVERFLOW)
      results &&
    forallb (fun r => Z.abs (default 0 (summary (data r) !! lit "Final price")) <? FLOAT_OVERFLOW)
      results &&
    forallb (fun r => Z.abs (default 0 (summary (data r) !! lit "Total ETH raised")) <? FLOAT_OVERFLOW)
      results &&
    forallb (fun r => Z.abs (default 0 (summary (data r) !! lit "Tokens sold in sale")) <? FLOAT_OVERFLOW)
      results.
Proof.
  induction results as [|r rs IH]; [done|]. cbn [forallb]. rewrite IH.
  unfold fits_float. cbn [forallb].
  destruct (Z.abs (default 0 (summary (data r) !! lit "Starting price")) <? _),
    (Z.abs (default 0 (summary (data r) !! lit "Final price")) <? _),
    (Z.abs (default 0 (summary (data r) !! lit "Total ETH raised")) <? _),
    (Z.abs (default 0 (summary (data r) !! lit "Tokens sold in sale")) <? _),
    (forallb _ rs), (forallb _ rs), (forallb _ rs), (forallb _ rs); reflexivity.
Qed.

Local Ltac case_column key :=
  match goal with
  | |- context [forallb (fun r => Z.abs (default 0 (summary (data r) !! lit key)) <? FLOAT_OVERFLOW) ?rs] =>
      destruct (forallb (fun r => Z.abs (default 0 (summary (data r) !! lit key)) <? FLOAT_OVERFLOW) rs)
  end.

(** [create_summary_table], computed. *)
Lemma create_summary_table_value results :
  create_summary_table results =
    match results with
    | [] => Raise (KeyError (lit "Initial Price (wei)"))
    | _ =>
        if forallb fits_float results
        then Ok (summary_table_of results
                   (converted_column 1e18 "Starting price" results)
                   (converted_column 1e18 "Final price" results)
                   (converted_column 1e18 "Total ETH raised" results)
                   (converted_column 1e6 "Tokens sold in sale" results))
        else Raise OverflowError
    end.
Proof.
  destruct results as [|r rs]; [done|]. cbv beta iota.
  rewrite create_summary_table_eq, forallb_fits_float_split.
  generalize (r :: rs) as results. intros results.
  rewrite !apply_scale_or_zero_column by done.
  case_column "Starting price"; [|done]. cbn [mbind res_mbind res_bind andb].
  case_column "Final price"; [|done]. cbn [mbind res_mbind res_bind andb].
  case_column "Total ETH raised"; [|done]. cbn [mbind res_mbind res_bind andb].
  case_column "Tokens sold in sale"; [|done]. reflexivity.
Qed.

Lemma converted_column_lookup d key results i r z :
  results !! i = Some r -> summary (data r) !! lit key = Some z -> z <> 0 ->
  converted_column d key results !! i = Some (scaled d z).
Proof.
  intros Hr Hz Hnz. unfold converted_column.
  set (col := map _ results).
  assert (col !! i = Some (scaled d z)) as Hc.
  { unfold col. change (map ?f results) with (f <$> results).
    rewrite list_lookup_fmap, Hr. cbn [fmap option_fmap option_map]. rewrite Hz. cbn [default].
    unfold scaled_or_zero, id. by destruct (Z.eqb_spec z 0). }
  destruct (Forall2_lookup_l _ _ _ _ _ (convert_objects_Forall2 col) Hc) as (c' & -> & [->| ->]);
    done.
Qed.

End SummaryValue.

Section TableValues.
Import FrameFacts ScaleFacts SummaryFacts SummaryValue PurchaseFacts.

(** X7.  [create_summary_table] raises in two cases only: on an empty
    batch, where reading the column [Initial Price (wei)] of a table without
    columns is a [KeyError], and on a batch with one of the four converted
    metrics too large for a float ([2^1024 - 2^970] or more), where the
    division is an [OverflowError]. *)
Theorem summary_table_raises (results : list scenario_result) (e : exn) :
  create_summary_table results = Raise e <->
    results = [] /\ e = KeyError (lit "Initial Price (wei)") \/
    results <> [] /\ forallb fits_float results = false /\ e = OverflowError.
Proof.
  rewrite create_summary_table_value. destruct results as [|r rs].
  - split; [intros [= <-]; by left|]. by intros [[_ ->]|[? _]].
  - destruct (forallb fits_float (r :: rs)).
    + split; [done|]. by intros [[? _]|(_ & ? & _)].
    + split; [intros [= <-]; by right|]. by intros [[? _]|(_ & _ & ->)].
Qed.

(** X8.  In the summary table a metric that is present and not zero is
    converted to the binary64 quotient of the float nearest to it by the
    divisor of its column. *)
Theorem converted_metric_cells (results : list scenario_result) (df : DataFrame) :
  create_summary_table results = Ok df ->
  Forall (fun '(col, key, d) =>
            exists cells,
              getitem df (lit col) = Ok cells /\
              forall i r z,
                results !! i = Some r -> summary (data r) !! lit key = Some z -> z <> 0 ->
                cells !! i = Some (CFloat (float_of_Z z / d)))
    CONVERTED_COLUMNS.
Proof.
  rewrite create_summary_table_value. destruct results as [|r rs]; [done|].
  destruct (forallb fits_float (r :: rs)); [|done]. intros [= <-].
  repeat constructor; (eexists; split; [reflexivity|]);
    intros i r' z Hr Hz Hnz; by eapply converted_column_lookup.
Qed.

Lemma converted_metric_cells_witness :
  exists df,
    create_summary_table [SAMPLE_RESULT] = Ok df /\
    Forall (fun '(col, key, d) =>
              exists cells,
                getitem df (lit col) = Ok cells /\
                forall i r z,
                  [SAMPLE_RESULT] !! i = Some r -> summary (data r) !! lit key = Some z ->
                  z <> 0 -> cells !! i = Some (CFloat (float_of_Z z / d)))
      CONVERTED_COLUMNS.
Proof.
  eexists. split; [vm_compute; reflexivity|].
  apply (converted_metric_cells [SAMPLE_RESULT]). vm_compute. reflexivity.
Defined.

Lemma purchase_rows_fields (f : purchase -> cell) results :
  map (fun np : str * purchase => f np.2) (purchase_rows results) =
    map f (batch_purchases results).
Proof.
  unfold purchase_rows, batch_purchases. induction results as [|r rs IH]; [done|].
  cbn [map concat]. rewrite !map_app, IH, map_map. done.
Qed.

Lemma purchase_rows_names results :
  map (fun np : str * purchase => CStr np.1) (purchase_rows results) =
    concat (map (fun r => replicate (length (purchases (data r))) (CStr (scenario_name r)))
              results).
Proof.
  unfold purchase_rows. induction results as [|r rs IH]; [done|].
  cbn [map concat]. rewrite map_app, IH, map_map. f_equal.
  induction (purchases (data r)) as [|p ps IHp]; [done|]. cbn [map length replicate fst].
  by f_equal.
Qed.

Lemma purchase_rows_nil results : purchase_rows results = [] <-> batch_purchases results = [].
Proof.
  pose proof (purchase_rows_fields (fun p => CInt (purchase_num p)) results) as H.
  split; intros E; rewrite E in H.
  - symmetry in H. by apply map_eq_nil in H.
  - by apply map_eq_nil in H.
Qed.

(** X9.  The purchase table has one row per purchase of the batch, the
    scenarios in the order of the batch and the purchases of a scenario in
    the order of its list; each row carries the name of its scenario; the
    four raw columns hold the fields as integers and the three converted
    columns hold the binary64 quotients. *)
Theorem purchase_table_rows (results : list scenario_result) (df : DataFrame) :
  create_purchase_dataframe results = Ok df ->
  (df_cols df).*1 = PURCHASE_COLUMNS /\
  df_rows df = length (batch_purchases results) /\
  getitem df (lit "scenario") =
    Ok (concat (map (fun r => replicate (length (purchases (data r))) (CStr (scenario_name r)))
                  results)) /\
  Forall (fun '(col, f) =>
            getitem df (lit col) = Ok (map (fun p => CInt (f p)) (batch_purchases results)))
    RAW_FIELDS /\
  Forall (fun '(col, f, d) =>
            getitem df (lit col) =
              Ok (map (fun p => CFloat (float_of_Z (f p) / d)) (batch_purchases results)))
    CONVERTED_FIELDS.
Proof.
  rewrite create_purchase_dataframe_eq.
  destruct (purchase_rows results) as [|np rows] eqn:Hrows; [done|]. rewrite <- Hrows.
  destruct (forallb _ results); [|done]. intros [= <-].
  split; [done|]. split; [|split; [|split]].
  - cbn [df_rows purchase_table_of].
    by rewrite <- (length_map (fun p => CInt (purchase_num p))), <- purchase_rows_fields, length_map.
  - by rewrite <- purchase_rows_names.
  - repeat constructor; by rewrite <- purchase_rows_fields.
  - repeat constructor; by rewrite <- (purchase_rows_fields (fun p => CFloat (float_of_Z _ / _))).
Qed.

Lemma purchase_table_rows_witness :
  (df_cols SAMPLE_PURCHASE_TABLE).*1 = PURCHASE_COLUMNS /\
  df_rows SAMPLE_PURCHASE_TABLE = length (batch_purchases SAMPLE_BATCH) /\
  getitem SAMPLE_PURCHASE_TABLE (lit "scenario") =
    Ok (concat (map (fun r => replicate (length (purchases (data r))) (CStr (scenario_name r)))
                  SAMPLE_BATCH)) /\
  Forall (fun '(col, f) =>
            getitem SAMPLE_PURCHASE_TABLE (lit col) =
              Ok (map (fun p => CInt (f p)) (batch_purchases SAMPLE_BATCH)))
    RAW_FIELDS /\
  Forall (fun '(col, f, d) =>
            getitem SAMPLE_PURCHASE_TABLE (lit col) =
              Ok (map (fun p => CFloat (float_of_Z (f p) / d)) (batch_purchases SAMPLE_BATCH)))
    CONVERTED_FIELDS.
Proof.
  apply (purchase_table_rows SAMPLE_BATCH SAMPLE_PURCHASE_TABLE). vm_compute. reflexivity.
Defined.

Lemma purchase_table_columns results df :
  create_purchase_dataframe results = Ok df ->
  getitem df (lit "tokens_received") =
    Ok (map (fun p => CInt (tokens_received p)) (batch_purchases results)) /\
  getitem df (lit "eth_spent") =
    Ok (map (fun p => CInt (eth_spent p)) (batch_purchases results)).
Proof.
  rewrite create_purchase_dataframe_eq.
  destruct (purchase_rows results) as [|np rows] eqn:Hrows; [done|]. rewrite <- Hrows.
  destruct (forallb _ results); [|done]. intros [= <-].
  by rewrite <- !purchase_rows_fields.
Qed.

(** X10.  [create_purchase_dataframe] raises in two cases only: on a batch
    without any purchase, where reading the column [eth_spent] of a table
    without columns is a [KeyError], and on a batch with a purchase whose
    ETH, tokens or price is too large for a float, where the division is an
    [OverflowError]. *)
Theorem purchase_table_raises (results : list scenario_result) (e : exn) :
  create_purchase_dataframe results = Raise e <->
    batch_purchases results = [] /\ e = KeyError (lit "eth_spent") \/
    batch_purchases results <> [] /\
    forallb fits_purchase (batch_purchases results) = false /\ e = OverflowError.
Proof.
  rewrite create_purchase_dataframe_eq.
  assert (forallb (fun r => forallb fits_purchase (purchases (data r))) results =
          forallb fits_purchase (batch_purchases results)) as ->.
  { unfold batch_purchases. induction results as [|r rs IH]; [done|].
    cbn [map concat forallb]. by rewrite forallb_app, IH. }
  rewrite <- purchase_rows_nil.
  destruct (purchase_rows results) as [|np rows].
  - split; [intros [= <-]; by left|]. by intros [[_ ->]|[? _]].
  - destruct (forallb fits_purchase _).
    + split; [done|]. by intros [[? _]|(_ & ? & _)].
    + split; [intros [= <-]; by right|]. by intros [[? _]|(_ & _ & ->)].
Qed.

End TableValues.

Section Division.
Import FrameFacts ScaleFacts PurchaseFacts.

Lemma py_truediv_raises (a b : cell) (e : exn) :
  py_truediv a b = Raise e -> e = ZeroDivisionError \/ e = OverflowError \/ e = TypeError.
Proof.
  destruct a as [x|x|x], b as [y|y|y]; cbn [py_truediv]; try (intros [= <-]; tauto).
  - unfold py_int_truediv. destruct (y =? 0); [intros [= <-]; tauto|].
    destruct (x =? 0); [done|]. destruct (SFdiv_core_binary _ _ _ _ _ _) as [[m e'] l].
    destruct (PrimFloat.is_infinity _); [intros [= <-]; tauto|done].
  - unfold py_float_of_int. destruct (_ <=? _); [intros [= <-]; tauto|].
    cbn [mbind res_mbind res_bind]. unfold py_float_truediv.
    destruct (PrimFloat.is_zero y); [intros [= <-]; tauto|done].
  - unfold py_float_of_int. destruct (_ <=? _); [intros [= <-]; tauto|].
    cbn [mbind res_mbind res_bind]. unfold py_float_truediv.
    destruct (PrimFloat.is_zero _); [intros [= <-]; tauto|done].
  - unfold py_float_truediv. destruct (PrimFloat.is_zero y); [intros [= <-]; tauto|done].
Qed.

Lemma py_truediv_zero (t : cell) : exists e, py_truediv t (CInt 0) = Raise e.
Proof. destruct t; by eexists. Qed.

(** Python's division, row by row, raises when a row divides by the
    integer zero. *)
Lemma zero_divisor_raises (tokens eth : list cell) (i : nat) (t : cell) :
  tokens !! i = Some t -> eth !! i = Some (CInt 0) ->
  exists e, res_map (fun xy => py_truediv xy.1 xy.2) (zip tokens eth) = Raise e.
Proof.
  intros Hti Hei. destruct (res_map _ (zip tokens eth)) as [ys|e] eqn:Hmap; [|by exists e].
  apply res_map_Forall2 in Hmap.
  assert (zip tokens eth !! i = Some (t, CInt 0)) as Hz by by apply lookup_zip_Some.
  destruct (Forall2_lookup_l _ _ _ _ _ Hmap Hz) as (y & _ & Hy). cbn [fst snd] in Hy.
  destruct (py_truediv_zero t) as [e He']. congruence.
Qed.

(** X11.  When the column [tokens_received] or [eth_spent] has dtype
    [object] (it holds an integer beyond 64 bits), the division of
    [plot_tokens_per_eth] is Python's, row by row: a row that spent no ETH
    makes it raise, and the table gets no new column.  What is raised is
    never a [KeyError]. *)
Theorem object_division_by_zero_raises (df : DataFrame) (tokens eth : list cell)
    (i : nat) (t : cell) :
  getitem df (lit "tokens_received") = Ok tokens ->
  getitem df (lit "eth_spent") = Ok eth ->
  infer_dtype tokens = Object \/ infer_dtype eth = Object ->
  tokens !! i = Some t -> eth !! i = Some (CInt 0) ->
  exists e,
    tokens_per_eth df = Raise e /\
    (e = ZeroDivisionError \/ e = OverflowError \/ e = TypeError).
Proof.
  intros Ht He Hobj Hti Hei. unfold tokens_per_eth. rewrite Ht, He.
  cbn [mbind res_mbind res_bind].
  assert (series_truediv tokens eth =
          res_map (fun xy => py_truediv xy.1 xy.2) (zip tokens eth)) as ->.
  { unfold series_truediv. destruct Hobj as [-> | ->]; [done|]. by destruct (infer_dtype tokens). }
  destruct (zero_divisor_raises tokens eth i t Hti Hei) as [e Hmap]. rewrite Hmap.
  exists e. split; [done|].
  apply res_map_Raise in Hmap as ([a b] & _ & Hab). by eapply py_truediv_raises.
Qed.

Lemma object_division_by_zero_raises_witness :
  exists e,
    tokens_per_eth OBJECT_TABLE = Raise e /\
    (e = ZeroDivisionError \/ e = OverflowError \/ e = TypeError).
Proof.
  apply (object_division_by_zero_raises OBJECT_TABLE [CInt (20 * 10 ^ 18)] [CInt 0] 0
           (CInt (20 * 10 ^ 18))); try reflexivity.
  left. reflexivity.
Defined.

Lemma infer_dtype_ints (zs : list Z) :
  zs <> [] -> Forall (fun z => 0 <= z) zs ->
  infer_dtype (map CInt zs) = Object <-> Exists (fun z => 2 ^ 64 <= z) zs.
Proof.
  intros Hne Hpos.
  assert (forallb in_uint64 (map CInt zs) = false <-> Exists (fun z => 2 ^ 64 <= z) zs) as Hu.
  { clear Hne. induction Hpos as [|z zs Hz _ IH]; [by rewrite Exists_nil|].
    cbn [map forallb in_uint64]. rewrite Exists_cons, <- IH, andb_false_iff, andb_false_iff.
    rewrite Z.leb_gt, Z.ltb_ge. intuition lia. }
  assert (forallb in_uint64 (map CInt zs) = false -> forallb in_int64 (map CInt zs) = false)
    as Hi.
  { clear Hne Hu. induction Hpos as [|z zs Hz _ IH]; [done|].
    cbn [map forallb in_uint64 in_int64]. rewrite !andb_false_iff, !Z.leb_gt, !Z.ltb_ge.
    intros [[?|?]|?]; [lia| |by right; apply IH]. left. right. lia. }
  assert (existsb is_str (map CInt zs) = false) as Hstr by (clear; by induction zs).
  assert (existsb is_float (map CInt zs) = false) as Hfl by (clear; by induction zs).
  rewrite <- Hu. unfold infer_dtype. destruct zs as [|z zs]; [done|].
  cbn [map]. cbn [map] in Hstr, Hfl, Hi. rewrite Hstr, Hfl.
  destruct (forallb in_uint64 _).
  - by destruct (forallb in_int64 _).
  - by rewrite Hi.
Qed.

(** X12.  On the purchase table of a batch with non-negative fields (as
    [parse_test_output] reads them) in which some purchase spent no ETH, the
    division of [plot_tokens_per_eth] raises if and only if some
    [tokens_received] or [eth_spent] of the batch is [2^64] or more: from
    there on the column is of dtype [object] and divides as Python does. *)
Theorem zero_eth_raises_beyond_64_bits (results : list scenario_result) (df : DataFrame) :
  create_purchase_dataframe results = Ok df ->
  Forall (fun p => 0 <= tokens_received p /\ 0 <= eth_spent p) (batch_purchases results) ->
  Exists (fun p => eth_spent p = 0) (batch_purchases results) ->
  ((exists e, tokens_per_eth df = Raise e) <->
   Exists (fun p => 2 ^ 64 <= tokens_received p \/ 2 ^ 64 <= eth_spent p)
     (batch_purchases results)).
Proof.
  intros Hdf Hpos Hzero.
  destruct (purchase_table_columns results df Hdf) as [Ht He].
  unfold tokens_per_eth. rewrite Ht, He. cbn [mbind res_mbind res_bind].
  set (ps := batch_purchases results) in *.
  assert (ps <> []) as Hne by (intros E; rewrite E in Hzero; by apply Exists_nil in Hzero).
  assert (map tokens_received ps <> [] /\ map eth_spent ps <> []) as [Hne1 Hne2]
    by (by destruct ps).
  set (tokens := map (fun p => CInt (tokens_received p)) ps).
  set (eth := map (fun p => CInt (eth_spent p)) ps).
  assert (Exists (fun p => 2 ^ 64 <= tokens_received p \/ 2 ^ 64 <= eth_spent p) ps <->
          infer_dtype tokens = Object \/ infer_dtype eth = Object) as ->.
  { unfold tokens, eth.
    rewrite <- (map_map tokens_received CInt), <- (map_map eth_spent CInt).
    rewrite !infer_dtype_ints; try done.
    - change (map ?f ps) with (f <$> ps). rewrite !Exists_fmap.
      split; [apply Exists_or_inv|apply Exists_or].
    - apply Forall_fmap. eapply Forall_impl; [exact Hpos|]. by intros p [? ?].
    - apply Forall_fmap. eapply Forall_impl; [exact Hpos|]. by intros p [? ?]. }
  assert (exists i t, tokens !! i = Some t /\ eth !! i = Some (CInt 0)) as (i & t & Hti & Hei).
  { apply Exists_exists in Hzero as (p & Hin & Hp).
    apply list_elem_of_lookup in Hin as [i Hi]. exists i, (CInt (tokens_received p)).
    unfold tokens, eth. change (map ?f ps) with (f <$> ps).
    rewrite !list_lookup_fmap, Hi. cbn. by rewrite Hp. }
  unfold series_truediv.
  destruct (infer_dtype tokens) eqn:E1, (infer_dtype eth) eqn:E2;
    try (split; [by intros [e [=]]|by intros [[=]|[=]]]);
    (split; [tauto|]); intros _;
    destruct (zero_divisor_raises tokens eth i t Hti Hei) as [e ->]; by exists e.
Qed.

Lemma zero_eth_raises_beyond_64_bits_witness :
  (exists e, tokens_per_eth OBJECT_TABLE = Raise e) <->
  Exists (fun p => 2 ^ 64 <= tokens_received p \/ 2 ^ 64 <= eth_spent p)
    (batch_purchases [ZERO_ETH_WEI_RESULT]).
Proof.
  apply (zero_eth_raises_beyond_64_bits [ZERO_ETH_WEI_RESULT] OBJECT_TABLE).
  - vm_compute. reflexivity.
  - repeat constructor; cbn; lia.
  - left. reflexivity.
Defined.

End Division.

(** * Further properties of the runner and of [main] *)

Section RunnerResults.

Context {World : Type}.
Context (subprocess_run : list str -> list (str * str) -> World -> CompletedProcess * World).
Context (json_dumps : list (str * Z) -> str).

Local Abbreviation batch := (run_scenario_tests subprocess_run json_dumps).
Local Abbreviation runs := (harness_runs subprocess_run json_dumps).







End RunnerResults.

Section MainOutcome.
Import FrameFacts ScaleFacts SummaryFacts SummaryValue PurchaseFacts.

Context {World : Type}.
Context (subprocess_run : list str -> list (str * str) -> World -> CompletedProcess * World).
Context (json_dumps : list (str * Z) -> str).

Local Abbreviation batch := (run_scenario_tests subprocess_run json_dumps).
Local Abbreviation run_main := (analyze subprocess_run json_dumps).









End MainOutcome.
